(** * The group state machine of the pg_auto_failover monitor

    A shallow embedding of [src/monitor/group_state_machine.c]: the
    replication-state vocabulary, the node and formation records, the
    health / lag / drain predicates, and the transition engine
    [ProceedGroupState] with its specialised branch
    [ProceedGroupStateForPrimaryNode].

    The engine runs inside the monitor database: it reads node rows, assigns
    goal states (an UPDATE of the node row plus an event), writes to the log
    channel, reads the wall clock, and may abort with [ereport(ERROR, ...)].
    These effects are modelled by a small state-and-error monad over the
    record [Monitor]. *)

From Stdlib Require Import ZArith List String Bool Lia.
Import ListNotations.
Local Open Scope string_scope.
Local Open Scope list_scope.
Local Open Scope Z_scope.

(** ** Replication-state vocabulary *)

(** Modelled from the spec: [replication_state.h] is not part of the sources
    at hand; the closed enumeration is the one of the data model, with the
    constant names used by [group_state_machine.c]. *)
Inductive ReplicationState : Type :=
| REPLICATION_STATE_SINGLE
| REPLICATION_STATE_WAIT_PRIMARY
| REPLICATION_STATE_PRIMARY
| REPLICATION_STATE_JOIN_PRIMARY
| REPLICATION_STATE_APPLY_SETTINGS
| REPLICATION_STATE_WAIT_STANDBY
| REPLICATION_STATE_CATCHINGUP
| REPLICATION_STATE_SECONDARY
| REPLICATION_STATE_PREPARE_PROMOTION
| REPLICATION_STATE_STOP_REPLICATION
| REPLICATION_STATE_DEMOTE_TIMEOUT
| REPLICATION_STATE_DRAINING
| REPLICATION_STATE_DEMOTED.

Definition ReplicationState_eqb (a b : ReplicationState) : bool :=
  match a, b with
  | REPLICATION_STATE_SINGLE, REPLICATION_STATE_SINGLE
  | REPLICATION_STATE_WAIT_PRIMARY, REPLICATION_STATE_WAIT_PRIMARY
  | REPLICATION_STATE_PRIMARY, REPLICATION_STATE_PRIMARY
  | REPLICATION_STATE_JOIN_PRIMARY, REPLICATION_STATE_JOIN_PRIMARY
  | REPLICATION_STATE_APPLY_SETTINGS, REPLICATION_STATE_APPLY_SETTINGS
  | REPLICATION_STATE_WAIT_STANDBY, REPLICATION_STATE_WAIT_STANDBY
  | REPLICATION_STATE_CATCHINGUP, REPLICATION_STATE_CATCHINGUP
  | REPLICATION_STATE_SECONDARY, REPLICATION_STATE_SECONDARY
  | REPLICATION_STATE_PREPARE_PROMOTION, REPLICATION_STATE_PREPARE_PROMOTION
  | REPLICATION_STATE_STOP_REPLICATION, REPLICATION_STATE_STOP_REPLICATION
  | REPLICATION_STATE_DEMOTE_TIMEOUT, REPLICATION_STATE_DEMOTE_TIMEOUT
  | REPLICATION_STATE_DRAINING, REPLICATION_STATE_DRAINING
  | REPLICATION_STATE_DEMOTED, REPLICATION_STATE_DEMOTED => true
  | _, _ => false
  end.

(** Modelled from the spec: the "primary-like" set
    {single, wait_primary, primary, join_primary, apply_settings}. *)
Definition StateIsPrimaryLike (st : ReplicationState) : bool :=
  match st with
  | REPLICATION_STATE_SINGLE
  | REPLICATION_STATE_WAIT_PRIMARY
  | REPLICATION_STATE_PRIMARY
  | REPLICATION_STATE_JOIN_PRIMARY
  | REPLICATION_STATE_APPLY_SETTINGS => true
  | _ => false
  end.

(** ** Node and formation records *)

(** Modelled from the spec: health tag in {good, bad, unknown}. *)
Inductive NodeHealthState : Type :=
| NODE_HEALTH_UNKNOWN
| NODE_HEALTH_BAD
| NODE_HEALTH_GOOD.

Definition NodeHealthState_eqb (a b : NodeHealthState) : bool :=
  match a, b with
  | NODE_HEALTH_UNKNOWN, NODE_HEALTH_UNKNOWN
  | NODE_HEALTH_BAD, NODE_HEALTH_BAD
  | NODE_HEALTH_GOOD, NODE_HEALTH_GOOD => true
  | _, _ => false
  end.

(** Modelled from the spec: the sync-state tag
    (async / potential / sync / quorum). *)
Inductive SyncState : Type :=
| SYNC_STATE_ASYNC
| SYNC_STATE_POTENTIAL
| SYNC_STATE_SYNC
| SYNC_STATE_QUORUM.

(** Modelled from the spec: the struct is declared in [node_metadata.h],
    which is not part of the sources at hand.  The fields are those of the
    data model, under the names the engine dereferences.  Timestamps
    ([TimestampTz]) are microseconds; [reportedLSN] is an [XLogRecPtr], an
    unsigned 64-bit value; the other integers are C [int]s. *)
Record AutoFailoverNode : Type := mkNode {
  formationId : string;
  nodeId : Z;
  groupId : Z;
  nodeName : string;
  nodePort : Z;
  goalState : ReplicationState;
  reportedState : ReplicationState;
  reportTime : Z;
  pgIsRunning : bool;
  pgsrSyncState : SyncState;
  health : NodeHealthState;
  healthCheckTime : Z;
  stateChangeTime : Z;
  reportedLSN : Z;
  candidatePriority : Z;
  replicationQuorum : bool
}.

(** Modelled from the spec: formation kind in {plain, sharded}. *)
Inductive FormationKind : Type :=
| FORMATION_KIND_PLAIN
| FORMATION_KIND_SHARDED.

Record AutoFailoverFormation : Type := mkFormation {
  formation_formationId : string;
  kind : FormationKind
}.

(** ** Configuration: the GUC variables and the process clock *)

Definition DEFAULT_XLOG_SEG_SIZE : Z := 16 * 1024 * 1024.

(** The five GUC variables of the file, the postmaster start time
    [PgStartTime], and the wall clock: [clock k] is the value returned by the
    [k]-th call of [GetCurrentTimestamp()]. *)
Record Config : Type := mkConfig {
  EnableSyncXlogThreshold : Z;
  PromoteXlogThreshold : Z;
  DrainTimeoutMs : Z;
  UnhealthyTimeoutMs : Z;
  StartupGracePeriodMs : Z;
  PgStartTime : Z;
  clock : nat -> Z
}.

(** The compiled-in defaults of the GUC variables. *)
Definition default_config (start : Z) (clk : nat -> Z) : Config :=
  {| EnableSyncXlogThreshold := DEFAULT_XLOG_SEG_SIZE;
     PromoteXlogThreshold := DEFAULT_XLOG_SEG_SIZE;
     DrainTimeoutMs := 30 * 1000;
     UnhealthyTimeoutMs := 20 * 1000;
     StartupGracePeriodMs := 10 * 1000;
     PgStartTime := start;
     clock := clk |}.

(** ** Messages, events and errors *)

Inductive MessageArg : Type :=
| ArgString (s : string)
| ArgInt (i : Z).

(** A message built by [LogAndNotifyMessage]: the printf format of the call
    and its arguments, left unformatted. *)
Record Message : Type := mkMessage {
  fmt : string;
  args : list MessageArg
}.

(** One call of [NotifyStateChange], with the arguments in the order of its
    declaration in [notifications.h]. *)
Record Event : Type := mkEvent {
  ev_reportedState : ReplicationState;
  ev_goalState : ReplicationState;
  ev_formationId : string;
  ev_groupId : Z;
  ev_nodeId : Z;
  ev_nodeName : string;
  ev_nodePort : Z;
  ev_pgsrSyncState : SyncState;
  ev_reportedLSN : Z;
  ev_candidatePriority : Z;
  ev_replicationQuorum : bool;
  ev_description : Message
}.

(** The [ereport(ERROR, ...)] of [ProceedGroupState]: "couldn't find the
    primary node in formation ..., group ...", with the detail
    "activeNode is name:port in state ...". *)
Inductive ErrorReport : Type :=
| ERROR_couldnt_find_primary_node
    (errFormationId : string) (errGroupId : Z)
    (errNodeName : string) (errNodePort : Z) (errGoalState : ReplicationState).

(** ** The monitor state and its monad *)

Record Monitor : Type := mkMonitor {
  nodeTable : list AutoFailoverNode;        (* rows of pgautofailover.node *)
  formationTable : list AutoFailoverFormation;
  events : list Event;                      (* NotifyStateChange calls, oldest first *)
  logChannel : list Message;                (* LogAndNotifyMessage calls, oldest first *)
  clockReads : nat;                         (* calls of GetCurrentTimestamp so far *)
  assignmentTime : Z                        (* the time an assignment made now is stamped with *)
}.

(** The result of running a piece of monitor code: it returns normally, or it
    raises an error (a non-local exit); both carry the monitor state reached. *)
Inductive Outcome (A : Type) : Type :=
| Ok (a : A) (s : Monitor)
| Raise (e : ErrorReport) (s : Monitor).
Arguments Ok {A} a s.
Arguments Raise {A} e s.

Definition M (A : Type) : Type := Monitor -> Outcome A.

Definition ret {A} (a : A) : M A := fun s => Ok a s.

Definition bind {A B} (c : M A) (k : A -> M B) : M B :=
  fun s => match c s with
           | Ok a s' => k a s'
           | Raise e s' => Raise e s'
           end.

Definition ereport {A} (e : ErrorReport) : M A := fun s => Raise e s.

Declare Scope monitor_scope.
Delimit Scope monitor_scope with monitor.
Notation "x <- c ;; k" := (bind c (fun x => k))
  (at level 61, c at next level, right associativity) : monitor_scope.
Notation "c ;;; k" := (bind c (fun _ => k))
  (at level 61, right associativity) : monitor_scope.
Local Open Scope monitor_scope.

(** C's short-circuit [&&] and [||] over conditions that have effects. *)
Definition andM (c1 c2 : M bool) : M bool :=
  b <- c1 ;; if b then c2 else ret false.

Definition orM (c1 c2 : M bool) : M bool :=
  b <- c1 ;; if b then ret true else c2.

Infix "&&&" := andM (at level 40, left associativity) : monitor_scope.
Infix "|||" := orM (at level 50, left associativity) : monitor_scope.

(** ** Primitive effects *)

Definition GetCurrentTimestamp (cfg : Config) : M Z :=
  fun s => Ok (clock cfg (clockReads s))
              {| nodeTable := nodeTable s;
                 formationTable := formationTable s;
                 events := events s;
                 logChannel := logChannel s;
                 clockReads := S (clockReads s);
                 assignmentTime := assignmentTime s |}.

(** [LogAndNotifyMessage] fills the caller's message buffer and publishes the
    text on the log channel. *)
Definition LogAndNotifyMessage (format : string) (a : list MessageArg)
  : M Message :=
  fun s => let m := {| fmt := format; args := a |} in
           Ok m {| nodeTable := nodeTable s;
                   formationTable := formationTable s;
                   events := events s;
                   logChannel := logChannel s ++ [m];
                   clockReads := clockReads s;
                   assignmentTime := assignmentTime s |}.

Definition NotifyStateChange (e : Event) : M unit :=
  fun s => Ok tt {| nodeTable := nodeTable s;
                    formationTable := formationTable s;
                    events := events s ++ [e];
                    logChannel := logChannel s;
                    clockReads := clockReads s;
                    assignmentTime := assignmentTime s |}.

(** Modelled from the spec: [SetNodeGoalState(nodeName, nodePort, state)]
    lives in [node_metadata.c], which is not part of the sources at hand; it
    persists the new goal state in the row of the node named by
    (nodeName, nodePort), and with it [stateChangeTime], which the
    specification defines as the last time [goalState] was assigned.  That
    time is [now], the time of the assignment as the monitor's database has
    it ([assignmentTime]); the C file does not call [GetCurrentTimestamp]
    for it, so it is no reading of [clock]. *)
Definition set_goalState (now : Z) (st : ReplicationState)
  (n : AutoFailoverNode) : AutoFailoverNode :=
  {| formationId := formationId n;
     nodeId := nodeId n;
     groupId := groupId n;
     nodeName := nodeName n;
     nodePort := nodePort n;
     goalState := st;
     reportedState := reportedState n;
     reportTime := reportTime n;
     pgIsRunning := pgIsRunning n;
     pgsrSyncState := pgsrSyncState n;
     health := health n;
     healthCheckTime := healthCheckTime n;
     stateChangeTime := now;
     reportedLSN := reportedLSN n;
     candidatePriority := candidatePriority n;
     replicationQuorum := replicationQuorum n |}.

Definition is_node (name : string) (port : Z) (n : AutoFailoverNode) : bool :=
  String.eqb (nodeName n) name && (nodePort n =? port).

Definition update_goalState (now : Z) (name : string) (port : Z)
  (st : ReplicationState) (rows : list AutoFailoverNode)
  : list AutoFailoverNode :=
  map (fun n => if is_node name port n then set_goalState now st n else n)
      rows.

Definition SetNodeGoalState (name : string) (port : Z) (st : ReplicationState)
  : M unit :=
  fun s => Ok tt {| nodeTable := update_goalState (assignmentTime s) name port
                                   st (nodeTable s);
                    formationTable := formationTable s;
                    events := events s;
                    logChannel := logChannel s;
                    clockReads := clockReads s;
                    assignmentTime := assignmentTime s |}.

(** ** Reading the node and formation tables *)

(** Modelled from the spec: [AutoFailoverNodeGroup(formationId, groupId)]
    ([node_metadata.c]) loads the full list of nodes of one group. *)
Definition in_group (fid : string) (gid : Z) (n : AutoFailoverNode) : bool :=
  String.eqb (formationId n) fid && (groupId n =? gid).

Definition AutoFailoverNodeGroup (fid : string) (gid : Z)
  : M (list AutoFailoverNode) :=
  fun s => Ok (filter (in_group fid gid) (nodeTable s)) s.

(** Modelled from the spec: [AutoFailoverOtherNodesList(node)]
    ([node_metadata.c]) is the set O of the other nodes of the group, told
    apart by their stable node identifier. *)
Definition AutoFailoverOtherNodesList (node : AutoFailoverNode)
  : M (list AutoFailoverNode) :=
  l <- AutoFailoverNodeGroup (formationId node) (groupId node) ;;
  ret (filter (fun o => negb (nodeId o =? nodeId node)) l).

(** Modelled from the spec: [GetPrimaryNodeInGroup(formationId, groupId)]
    ([node_metadata.c]) scans the group for a node whose reportedState or
    goalState is in the primary-like set; NULL when there is none. *)
Definition is_primary_candidate (n : AutoFailoverNode) : bool :=
  StateIsPrimaryLike (reportedState n) || StateIsPrimaryLike (goalState n).

Definition GetPrimaryNodeInGroup (fid : string) (gid : Z)
  : M (option AutoFailoverNode) :=
  l <- AutoFailoverNodeGroup fid gid ;;
  ret (find is_primary_candidate l).

(** Modelled from the spec: [GetFormation(formationId)]
    ([formation_metadata.c]) loads the formation record by identifier. *)
Definition GetFormation (fid : string) : M (option AutoFailoverFormation) :=
  fun s => Ok (find (fun f => String.eqb (formation_formationId f) fid)
                    (formationTable s)) s.

(** Modelled from the spec: [IsCitusFormation(formation)] holds when the
    formation kind is sharded. *)
Definition IsCitusFormation (formation : option AutoFailoverFormation) : bool :=
  match formation with
  | Some f => match kind f with
              | FORMATION_KIND_SHARDED => true
              | FORMATION_KIND_PLAIN => false
              end
  | None => false
  end.

(** ** Predicates over nodes *)

(** Modelled from the spec: [IsCurrentState(n, s)] is
    [n.reportedState = s /\ n.goalState = s], the node has converged to [s]. *)
Definition IsCurrentState (n : AutoFailoverNode) (st : ReplicationState) : bool :=
  ReplicationState_eqb (reportedState n) st
  && ReplicationState_eqb (goalState n) st.

(** Modelled from the spec: [IsInPrimaryState(n)], the node is primary-like:
    it has converged to a state of the primary-like set. *)
Definition IsInPrimaryState (n : AutoFailoverNode) : bool :=
  ReplicationState_eqb (reportedState n) (goalState n)
  && StateIsPrimaryLike (goalState n).

(** Unsigned 64-bit arithmetic of [XLogRecPtr] and the conversion of an
    unsigned 64-bit value to [int64]. *)
Definition uint64 (z : Z) : Z := z mod 2 ^ 64.

Definition int64_of_uint64 (z : Z) : Z :=
  if z <? 2 ^ 63 then z else z - 2 ^ 64.

(** Signed 64-bit arithmetic of [TimestampTz]: a result out of range wraps
    around. *)
Definition int64 (z : Z) : Z := int64_of_uint64 (uint64 z).

(** PostgreSQL's [TimestampDifferenceExceeds(start, stop, msec)]:
    [diff = stop - start; return diff >= msec * INT64CONST(1000)].  The
    difference is a [TimestampTz], so it wraps around; [msec] is an [int], so
    the product is exact. *)
Definition TimestampDifferenceExceeds (start_time stop_time msec : Z) : bool :=
  int64 (stop_time - start_time) >=? msec * 1000.

(** PostgreSQL's macro [Abs(x)], [((x) >= 0 ? (x) : -(x))], at type
    [XLogRecPtr]. *)
Definition Abs_XLogRecPtr (x : Z) : Z :=
  if x >=? 0 then x else uint64 (- x).

(** [WalDifferenceWithin(secondaryNode, otherNode, delta)]; a NULL pointer is
    [None]. *)
Definition WalDifferenceWithin (secondaryNode otherNode : option AutoFailoverNode)
  (delta : Z) : bool :=
  match secondaryNode, otherNode with
  | Some secondaryNode, Some otherNode =>
      let secondaryLsn := reportedLSN secondaryNode in
      let otherNodeLsn := reportedLSN otherNode in
      if (secondaryLsn =? 0) || (otherNodeLsn =? 0)
      then false (* we don't have any data yet *)
      else
        let walDifference :=
          int64_of_uint64 (Abs_XLogRecPtr (uint64 (otherNodeLsn - secondaryLsn))) in
        walDifference <=? delta
  | _, _ => true
  end.

(** [IsHealthy(node)]. *)
Definition IsHealthy (pgAutoFailoverNode : option AutoFailoverNode) : bool :=
  match pgAutoFailoverNode with
  | None => false
  | Some n => NodeHealthState_eqb (health n) NODE_HEALTH_GOOD
              && Bool.eqb (pgIsRunning n) true
  end.

(** The body of [IsUnhealthy] once the clock has been read. *)
Definition unhealthy_at (cfg : Config) (now : Z)
  (pgAutoFailoverNode : option AutoFailoverNode) : bool :=
  match pgAutoFailoverNode with
  | None => true
  | Some n =>
      if TimestampDifferenceExceeds (reportTime n) now (UnhealthyTimeoutMs cfg)
         && (NodeHealthState_eqb (health n) NODE_HEALTH_BAD
             && TimestampDifferenceExceeds (PgStartTime cfg) (healthCheckTime n) 0)
         && TimestampDifferenceExceeds (PgStartTime cfg) now
              (StartupGracePeriodMs cfg)
      then true
      else if negb (pgIsRunning n) then true
      else false
  end.

(** [IsUnhealthy(node)]: the clock is read first, before the NULL test. *)
Definition IsUnhealthy (cfg : Config)
  (pgAutoFailoverNode : option AutoFailoverNode) : M bool :=
  now <- GetCurrentTimestamp cfg ;;
  ret (unhealthy_at cfg now pgAutoFailoverNode).

(** [IsDrainTimeExpired(node)]: the clock is read only past the first test. *)
Definition IsDrainTimeExpired (cfg : Config)
  (pgAutoFailoverNode : option AutoFailoverNode) : M bool :=
  match pgAutoFailoverNode with
  | None => ret false
  | Some n =>
      if negb (ReplicationState_eqb (goalState n) REPLICATION_STATE_DEMOTE_TIMEOUT)
      then ret false
      else
        now <- GetCurrentTimestamp cfg ;;
        ret (if TimestampDifferenceExceeds (stateChangeTime n) now
                  (DrainTimeoutMs cfg)
             then true else false)
  end.

(** ** Assigning a goal state *)

Definition name_port (n : AutoFailoverNode) : list MessageArg :=
  [ArgString (nodeName n); ArgInt (nodePort n)].

(** The arguments [AssignGoalState] hands to [NotifyStateChange]. *)
Definition state_change_event (n : AutoFailoverNode) (state : ReplicationState)
  (description : Message) : Event :=
  {| ev_reportedState := reportedState n;
     ev_goalState := state;
     ev_formationId := formationId n;
     ev_groupId := groupId n;
     ev_nodeId := nodeId n;
     ev_nodeName := nodeName n;
     ev_nodePort := nodePort n;
     ev_pgsrSyncState := pgsrSyncState n;
     ev_reportedLSN := reportedLSN n;
     ev_candidatePriority := candidatePriority n;
     ev_replicationQuorum := replicationQuorum n;
     ev_description := description |}.

(** [AssignGoalState(node, state, description)].  Besides the row update and
    the notification, the C function overwrites [goalState] in the struct it
    is handed.  No statement of the engine reads [goalState] back from a
    struct after assigning it (every rule returns after its assignments, and
    the standby-health loop reads each other node before it assigns it), and
    the new goal state is in the node's row for the caller: nodes are passed
    by value here. *)
Definition AssignGoalState (pgAutoFailoverNode : option AutoFailoverNode)
  (state : ReplicationState) (description : Message) : M unit :=
  match pgAutoFailoverNode with
  | None => ret tt
  | Some n =>
      SetNodeGoalState (nodeName n) (nodePort n) state ;;;
      NotifyStateChange (state_change_event n state description)
  end.

(** ** The engine when a primary node contacts the monitor *)

(** The body of the third [foreach] of [ProceedGroupStateForPrimaryNode]
    ("when secondary unhealthy"), with the running [failoverCandidateCount]. *)
Fixpoint foreach_otherNode_unhealthy (cfg : Config)
  (primaryNode : AutoFailoverNode) (otherNodesGroupList : list AutoFailoverNode)
  (failoverCandidateCount : Z) : M unit :=
  match otherNodesGroupList with
  | [] => ret tt
  | otherNode :: rest =>
      unhealthySecondary <-
        (ret (IsCurrentState otherNode REPLICATION_STATE_SECONDARY)
         &&& IsUnhealthy cfg (Some otherNode)) ;;
      failoverCandidateCount <-
        (if unhealthySecondary
         then
           let failoverCandidateCount := failoverCandidateCount - 1 in
           message <- LogAndNotifyMessage
             "Setting goal state of %s:%d to catchingup after it became unhealthy."
             (name_port otherNode) ;;
           (* other node is behind, no longer eligible for promotion *)
           AssignGoalState (Some otherNode) REPLICATION_STATE_CATCHINGUP message ;;;
           ret failoverCandidateCount
         else if negb (replicationQuorum otherNode)
                 || (candidatePriority otherNode =? 0)
         then (* also not a candidate *)
           ret (failoverCandidateCount - 1)
         else ret failoverCandidateCount) ;;
      (* disable synchronous replication to maintain availability *)
      (if failoverCandidateCount =? 0
       then
         message <- LogAndNotifyMessage
           "Setting goal state of %s:%d to wait_primary now that none of the standbys are healthy anymore."
           (name_port primaryNode) ;;
         AssignGoalState (Some primaryNode) REPLICATION_STATE_WAIT_PRIMARY message
       else ret tt) ;;;
      foreach_otherNode_unhealthy cfg primaryNode rest failoverCandidateCount
  end.

(** The first two [foreach] loops return at the first other node that has
    converged to wait_standby. *)
Definition first_wait_standby (otherNodesGroupList : list AutoFailoverNode)
  : option AutoFailoverNode :=
  find (fun otherNode => IsCurrentState otherNode REPLICATION_STATE_WAIT_STANDBY)
       otherNodesGroupList.

Definition ProceedGroupStateForPrimaryNode (cfg : Config)
  (primaryNode : AutoFailoverNode) : M bool :=
  otherNodesGroupList <- AutoFailoverOtherNodesList primaryNode ;;
  let otherNodesCount := Z.of_nat (List.length otherNodesGroupList) in
  (* when a first "other" node wants to become standby:
       single -> wait_primary *)
  match (if IsCurrentState primaryNode REPLICATION_STATE_SINGLE
         then first_wait_standby otherNodesGroupList else None) with
  | Some otherNode =>
      message <- LogAndNotifyMessage
        "Setting goal state of %s:%d to wait_primary after %s:%d joined."
        (name_port primaryNode ++ name_port otherNode) ;;
      (* prepare replication slot and pg_hba.conf *)
      AssignGoalState (Some primaryNode) REPLICATION_STATE_WAIT_PRIMARY message ;;;
      ret true
  | None =>
  (* when another node wants to become standby:
       primary -> join_primary *)
  match (if IsCurrentState primaryNode REPLICATION_STATE_PRIMARY
         then first_wait_standby otherNodesGroupList else None) with
  | Some otherNode =>
      message <- LogAndNotifyMessage
        "Setting goal state of %s:%d to join_primary after %s:%d joined."
        (name_port primaryNode ++ name_port otherNode) ;;
      (* prepare replication slot and pg_hba.conf *)
      AssignGoalState (Some primaryNode) REPLICATION_STATE_JOIN_PRIMARY message ;;;
      ret true
  | None =>
  (* when secondary unhealthy:
       secondary -> catchingup
         primary -> wait_primary *)
  if IsCurrentState primaryNode REPLICATION_STATE_PRIMARY
  then
    foreach_otherNode_unhealthy cfg primaryNode otherNodesGroupList
      otherNodesCount ;;;
    ret true
  (* when a node has changed its replication settings:
       apply_settings -> primary *)
  else if IsCurrentState primaryNode REPLICATION_STATE_APPLY_SETTINGS
  then
    message <- LogAndNotifyMessage
      "Setting goal state of %s:%d to primary after it applied replication properties change."
      (name_port primaryNode) ;;
    AssignGoalState (Some primaryNode) REPLICATION_STATE_PRIMARY message ;;;
    ret true
  else ret false
  end end.

(** ** The engine *)

(** The rules of [ProceedGroupState] that follow the lookup of the primary
    node, once that lookup has returned a node. *)
Definition ProceedGroupState_with_primary (cfg : Config)
  (formation : option AutoFailoverFormation)
  (activeNode primaryNode : AutoFailoverNode) : M bool :=
  (* if (IsUnhealthy(primaryNode)) { TODO: Multiple Stanby Failover Logic } *)
  _ <- IsUnhealthy cfg (Some primaryNode) ;;
  (* when primary node is ready for replication:
       prepare_standby -> catchingup *)
  if IsCurrentState activeNode REPLICATION_STATE_WAIT_STANDBY
     && (IsCurrentState primaryNode REPLICATION_STATE_WAIT_PRIMARY
         || IsCurrentState primaryNode REPLICATION_STATE_JOIN_PRIMARY)
  then
    message <- LogAndNotifyMessage
      "Setting goal state of %s:%d to catchingup after %s:%d converged to wait_primary."
      (name_port activeNode ++ name_port primaryNode) ;;
    (* start replication *)
    AssignGoalState (Some activeNode) REPLICATION_STATE_CATCHINGUP message ;;;
    ret true
  (* when secondary caught up:
         catchingup -> secondary
     + wait_primary -> primary *)
  else if IsCurrentState activeNode REPLICATION_STATE_CATCHINGUP
          && (IsCurrentState primaryNode REPLICATION_STATE_WAIT_PRIMARY
              || IsCurrentState primaryNode REPLICATION_STATE_JOIN_PRIMARY)
          && IsHealthy (Some activeNode)
          && WalDifferenceWithin (Some activeNode) (Some primaryNode)
               (EnableSyncXlogThreshold cfg)
  then
    message <- LogAndNotifyMessage
      "Setting goal state of %s:%d to primary and %s:%d to secondary after %s:%d caught up."
      (name_port primaryNode ++ name_port activeNode ++ name_port activeNode) ;;
    (* node is ready for promotion *)
    AssignGoalState (Some activeNode) REPLICATION_STATE_SECONDARY message ;;;
    (* other node can enable synchronous commit *)
    AssignGoalState (Some primaryNode) REPLICATION_STATE_PRIMARY message ;;;
    ret true
  else
  (* when primary fails:
       secondary -> prepare_promotion
     +   primary -> draining *)
  primaryFailed <-
    (ret (IsCurrentState activeNode REPLICATION_STATE_SECONDARY
          && IsInPrimaryState primaryNode)
     &&& IsUnhealthy cfg (Some primaryNode)
     &&& ret (IsHealthy (Some activeNode)
              && WalDifferenceWithin (Some activeNode) (Some primaryNode)
                   (PromoteXlogThreshold cfg))) ;;
  if primaryFailed
  then
    message <- LogAndNotifyMessage
      "Setting goal state of %s:%d to draining and %s:%d to prepare_promotion after %s:%d became unhealthy."
      (name_port primaryNode ++ name_port activeNode ++ name_port primaryNode) ;;
    (* keep reading until no more records are available *)
    AssignGoalState (Some activeNode) REPLICATION_STATE_PREPARE_PROMOTION message ;;;
    (* shut down the primary *)
    AssignGoalState (Some primaryNode) REPLICATION_STATE_DRAINING message ;;;
    ret true
  (* when a worker blocked writes:
       prepare_promotion -> wait_primary *)
  else if IsCurrentState activeNode REPLICATION_STATE_PREPARE_PROMOTION
          && IsCitusFormation formation && (groupId activeNode >? 0)
  then
    message <- LogAndNotifyMessage
      "Setting goal state of %s:%d to wait_primary and %s:%d to demoted after the coordinator metadata was updated."
      (name_port activeNode ++ name_port primaryNode) ;;
    (* node is now taking writes *)
    AssignGoalState (Some activeNode) REPLICATION_STATE_WAIT_PRIMARY message ;;;
    (* done draining, node is presumed dead *)
    AssignGoalState (Some primaryNode) REPLICATION_STATE_DEMOTED message ;;;
    ret true
  (* when node is seeing no more writes:
       prepare_promotion -> stop_replication *)
  else if IsCurrentState activeNode REPLICATION_STATE_PREPARE_PROMOTION
  then
    message <- LogAndNotifyMessage
      "Setting goal state of %s:%d to demote_timeout and %s:%d to stop_replication after %s:%d converged to prepare_promotion."
      (name_port primaryNode ++ name_port activeNode ++ name_port activeNode) ;;
    (* perform promotion to stop replication *)
    AssignGoalState (Some activeNode) REPLICATION_STATE_STOP_REPLICATION message ;;;
    (* wait for possibly-alive primary to kill itself *)
    AssignGoalState (Some primaryNode) REPLICATION_STATE_DEMOTE_TIMEOUT message ;;;
    ret true
  else
  (* when drain time expires or primary reports it's drained:
       draining -> demoted *)
  drained <-
    (ret (IsCurrentState activeNode REPLICATION_STATE_STOP_REPLICATION)
     &&& (ret (IsCurrentState primaryNode REPLICATION_STATE_DEMOTE_TIMEOUT)
          ||| IsDrainTimeExpired cfg (Some primaryNode))) ;;
  if drained
  then
    message <- LogAndNotifyMessage
      "Setting goal state of %s:%d to wait_primary and %s:%d to demoted after the demote timeout expired."
      (name_port activeNode ++ name_port primaryNode) ;;
    (* node is now taking writes *)
    AssignGoalState (Some activeNode) REPLICATION_STATE_WAIT_PRIMARY message ;;;
    (* done draining, node is presumed dead *)
    AssignGoalState (Some primaryNode) REPLICATION_STATE_DEMOTED message ;;;
    ret true
  (* when a worker blocked writes:
       stop_replication -> wait_primary *)
  else if IsCurrentState activeNode REPLICATION_STATE_STOP_REPLICATION
          && IsCitusFormation formation && (groupId activeNode >? 0)
  then
    message <- LogAndNotifyMessage
      "Setting goal state of %s:%d to wait_primary and %s:%d to demoted after the coordinator metadata was updated."
      (name_port activeNode ++ name_port primaryNode) ;;
    (* node is now taking writes *)
    AssignGoalState (Some activeNode) REPLICATION_STATE_WAIT_PRIMARY message ;;;
    (* done draining, node is presumed dead *)
    AssignGoalState (Some primaryNode) REPLICATION_STATE_DEMOTED message ;;;
    ret true
  (* when a new primary is ready:
       demoted -> catchingup *)
  else if IsCurrentState activeNode REPLICATION_STATE_DEMOTED
          && IsCurrentState primaryNode REPLICATION_STATE_WAIT_PRIMARY
  then
    message <- LogAndNotifyMessage
      "Setting goal state of %s:%d to catchingup after it converged to demotion and %s:%d converged to wait_primary."
      (name_port activeNode ++ name_port primaryNode) ;;
    (* it's safe to rejoin as a secondary *)
    AssignGoalState (Some activeNode) REPLICATION_STATE_CATCHINGUP message ;;;
    ret true
  else ret false.

(** [ProceedGroupState(activeNode)] proceeds the state machines of the group
    of which the given node is part. *)
Definition ProceedGroupState (cfg : Config) (activeNode : AutoFailoverNode)
  : M bool :=
  let fid := formationId activeNode in
  let gid := groupId activeNode in
  formation <- GetFormation fid ;;
  nodesGroupList <- AutoFailoverNodeGroup fid gid ;;
  let nodesCount := Z.of_nat (List.length nodesGroupList) in
  (* when there's no other node anymore, not even one *)
  if (nodesCount =? 1)
     && negb (IsCurrentState activeNode REPLICATION_STATE_SINGLE)
  then
    message <- LogAndNotifyMessage
      "Setting goal state of %s:%d to single as there is no other node."
      (name_port activeNode) ;;
    (* other node may have been removed *)
    AssignGoalState (Some activeNode) REPLICATION_STATE_SINGLE message ;;;
    ret true
  (* the FSM for the primary server is separated out *)
  else if IsInPrimaryState activeNode
  then ProceedGroupStateForPrimaryNode cfg activeNode
  else
    primaryNode <- GetPrimaryNodeInGroup fid gid ;;
    match primaryNode with
    | None =>
        (* that's a bug, really, maybe we could use an Assert() instead *)
        ereport (ERROR_couldnt_find_primary_node fid gid
                   (nodeName activeNode) (nodePort activeNode)
                   (goalState activeNode))
    | Some primaryNode =>
        ProceedGroupState_with_primary cfg formation activeNode primaryNode
    end.

(** * The SSL modes of pg_autoctl *)

(** [pgsetup.c] converts between the names of the SSL modes and the
    enumeration [SSLMode]. The enumeration is declared in [pgsetup.h]; its
    seven constants are those the two functions use. *)
Inductive SSLMode : Type :=
  | SSL_MODE_UNKNOWN
  | SSL_MODE_DISABLE
  | SSL_MODE_ALLOW
  | SSL_MODE_PREFER
  | SSL_MODE_REQUIRE
  | SSL_MODE_VERIFY_CA
  | SSL_MODE_VERIFY_FULL.

(** The two local arrays of [pgsetup_parse_sslmode]; the list of names ends
    where the C array holds its NULL. *)
Definition enumArray : list SSLMode :=
  [SSL_MODE_DISABLE; SSL_MODE_ALLOW; SSL_MODE_PREFER; SSL_MODE_REQUIRE;
   SSL_MODE_VERIFY_CA; SSL_MODE_VERIFY_FULL].

Definition sslModeArray : list string :=
  ["disable"; "allow"; "prefer"; "require"; "verify-ca"; "verify-full"].

(** The loop of [pgsetup_parse_sslmode], from index [sslModeArrayIndex] on:
    [names] is what is left of [sslModeArray] at that index. *)
Fixpoint parse_sslmode_from (sslMode : string) (names : list string)
  (sslModeArrayIndex : nat) : SSLMode :=
  match names with
  | [] => SSL_MODE_UNKNOWN
  | name :: rest =>
      if String.eqb sslMode name
      then nth sslModeArrayIndex enumArray SSL_MODE_UNKNOWN
      else parse_sslmode_from sslMode rest (S sslModeArrayIndex)
  end.

Definition pgsetup_parse_sslmode (sslMode : string) : SSLMode :=
  parse_sslmode_from sslMode sslModeArray 0.

Definition pgsetup_sslmode_to_string (sslMode : SSLMode) : string :=
  match sslMode with
  | SSL_MODE_UNKNOWN => "unknown"
  | SSL_MODE_DISABLE => "disable"
  | SSL_MODE_ALLOW => "allow"
  | SSL_MODE_PREFER => "prefer"
  | SSL_MODE_REQUIRE => "require"
  | SSL_MODE_VERIFY_CA => "verify-ca"
  | SSL_MODE_VERIFY_FULL => "verify-full"
  end.

(** * The vocabulary of the properties *)

(** ** What an invocation produces *)

(** Replaying an event on the node table: the row update that
    [AssignGoalState] performs next to the notification, stamped with the
    time [now] of the invocation. *)
Definition apply_event (now : Z) (rows : list AutoFailoverNode) (e : Event)
  : list AutoFailoverNode :=
  update_goalState now (ev_nodeName e) (ev_nodePort e) (ev_goalState e)
    rows.

Definition apply_events (now : Z) (new : list Event)
  (rows : list AutoFailoverNode) : list AutoFailoverNode :=
  fold_left (apply_event now) new rows.

(** [extends s s' new]: from [s] to [s'] exactly the assignments [new] were
    made, in this order; each one is an event and a row update. *)
Record extends (s s' : Monitor) (new : list Event) : Prop := mkExtends {
  ext_events : events s' = events s ++ new;
  ext_nodes :
    nodeTable s' = apply_events (assignmentTime s) new (nodeTable s);
  ext_formations : formationTable s' = formationTable s;
  ext_time : assignmentTime s' = assignmentTime s
}.

Definition final_state {A} (o : Outcome A) : Monitor :=
  match o with
  | Ok _ s' => s'
  | Raise _ s' => s'
  end.

(** The goal-state assignments produced by one invocation of the engine: the
    events it adds. *)
Definition assignments (cfg : Config) (activeNode : AutoFailoverNode)
  (s : Monitor) : list Event :=
  skipn (List.length (events s))
        (events (final_state (ProceedGroupState cfg activeNode s))).

(** ** The standby-health loop in the words of rule R12 *)

(** The definitions of this section are written from the wording of rule R12
    in the specification, not from the loop of the C function; the loop
    [foreach_otherNode_unhealthy] is compared with them below.  They say
    when a node counts as unhealthy: at the reading of the clock that its
    examination makes. *)

Definition unhealthy_secondary (cfg : Config) (now : Z) (o : AutoFailoverNode)
  : bool :=
  IsCurrentState o REPLICATION_STATE_SECONDARY && unhealthy_at cfg now (Some o).

Definition not_a_candidate (o : AutoFailoverNode) : bool :=
  negb (replicationQuorum o) || (candidatePriority o =? 0).

(** Examining a converged secondary costs one reading of the clock. *)
Definition next_read (t : nat) (o : AutoFailoverNode) : nat :=
  if IsCurrentState o REPLICATION_STATE_SECONDARY then S t else t.

(** The other nodes that are converged secondaries and unhealthy when they
    are examined, the first of them at clock reading [t]. *)
Fixpoint R12_unhealthy (cfg : Config) (t : nat) (O : list AutoFailoverNode)
  : list AutoFailoverNode :=
  match O with
  | [] => []
  | o :: rest =>
      (if unhealthy_secondary cfg (clock cfg t) o then [o] else [])
      ++ R12_unhealthy cfg (next_read t o) rest
  end.

(** How many times the count of failover candidates is decremented. *)
Fixpoint R12_decrements (cfg : Config) (t : nat) (O : list AutoFailoverNode)
  : Z :=
  match O with
  | [] => 0
  | o :: rest =>
      (if unhealthy_secondary cfg (clock cfg t) o || not_a_candidate o
       then 1 else 0)
      + R12_decrements cfg (next_read t o) rest
  end.

Definition catchingup_event (o : AutoFailoverNode) : Event :=
  state_change_event o REPLICATION_STATE_CATCHINGUP
    {| fmt := "Setting goal state of %s:%d to catchingup after it became unhealthy.";
       args := name_port o |}.

Definition wait_primary_event (primaryNode : AutoFailoverNode) : Event :=
  state_change_event primaryNode REPLICATION_STATE_WAIT_PRIMARY
    {| fmt := "Setting goal state of %s:%d to wait_primary now that none of the standbys are healthy anymore.";
       args := name_port primaryNode |}.

(** The assignments of rule R12 for a count that starts at [count]: every
    unhealthy secondary goes to catchingup, and the primary goes to
    wait_primary when there are other nodes and the count ends at zero. *)
Definition R12_assignments (cfg : Config) (primaryNode : AutoFailoverNode)
  (t : nat) (O : list AutoFailoverNode) (count : Z) : list Event :=
  map catchingup_event (R12_unhealthy cfg t O)
  ++ (if negb (Nat.eqb (List.length O) 0)
         && (count - R12_decrements cfg t O =? 0)
      then [wait_primary_event primaryNode] else []).

(** ** The decision of one invocation *)

Definition nodesGroup (s : Monitor) (n : AutoFailoverNode)
  : list AutoFailoverNode :=
  filter (in_group (formationId n) (groupId n)) (nodeTable s).

Definition otherNodes (s : Monitor) (n : AutoFailoverNode)
  : list AutoFailoverNode :=
  filter (fun o => negb (nodeId o =? nodeId n)) (nodesGroup s n).

Definition primaryNodeInGroup (s : Monitor) (n : AutoFailoverNode)
  : option AutoFailoverNode :=
  find is_primary_candidate (nodesGroup s n).

(** The rules, as what they return and assign: [decision cfg a s b new] when
    the engine, run for the reporting node [a] in state [s], may return [b]
    after the assignments [new]. *)
Inductive decision (cfg : Config) (a : AutoFailoverNode) (s : Monitor)
  : bool -> list Event -> Prop :=
| no_rule_fires :
    decision cfg a s false []
| sole_node msg :
    List.length (nodesGroup s a) = 1%nat ->
    decision cfg a s true
      [state_change_event a REPLICATION_STATE_SINGLE msg]
| standby_joins P msg :
    IsInPrimaryState a = false ->
    primaryNodeInGroup s a = Some P ->
    decision cfg a s true
      [state_change_event a REPLICATION_STATE_CATCHINGUP msg]
| caught_up P msg :
    IsInPrimaryState a = false ->
    primaryNodeInGroup s a = Some P ->
    IsCurrentState a REPLICATION_STATE_CATCHINGUP = true ->
    IsCurrentState P REPLICATION_STATE_WAIT_PRIMARY
    || IsCurrentState P REPLICATION_STATE_JOIN_PRIMARY = true ->
    decision cfg a s true
      [state_change_event a REPLICATION_STATE_SECONDARY msg;
       state_change_event P REPLICATION_STATE_PRIMARY msg]
| primary_failed P msg :
    IsInPrimaryState a = false ->
    primaryNodeInGroup s a = Some P ->
    IsCurrentState a REPLICATION_STATE_SECONDARY = true ->
    decision cfg a s true
      [state_change_event a REPLICATION_STATE_PREPARE_PROMOTION msg;
       state_change_event P REPLICATION_STATE_DRAINING msg]
| promotion_commit P msg :
    IsInPrimaryState a = false ->
    primaryNodeInGroup s a = Some P ->
    IsCurrentState a REPLICATION_STATE_PREPARE_PROMOTION = true ->
    decision cfg a s true
      [state_change_event a REPLICATION_STATE_STOP_REPLICATION msg;
       state_change_event P REPLICATION_STATE_DEMOTE_TIMEOUT msg]
| takes_over P msg :
    IsInPrimaryState a = false ->
    primaryNodeInGroup s a = Some P ->
    IsCurrentState a REPLICATION_STATE_PREPARE_PROMOTION
    || IsCurrentState a REPLICATION_STATE_STOP_REPLICATION = true ->
    decision cfg a s true
      [state_change_event a REPLICATION_STATE_WAIT_PRIMARY msg;
       state_change_event P REPLICATION_STATE_DEMOTED msg]
| primary_moves st msg :
    IsInPrimaryState a = true ->
    StateIsPrimaryLike st = true ->
    decision cfg a s true [state_change_event a st msg]
| standby_health :
    IsCurrentState a REPLICATION_STATE_PRIMARY = true ->
    decision cfg a s true
      (R12_assignments cfg a (clockReads s) (otherNodes s a)
         (Z.of_nat (List.length (otherNodes s a)))).

Definition primary_not_found (a : AutoFailoverNode) : ErrorReport :=
  ERROR_couldnt_find_primary_node (formationId a) (groupId a)
    (nodeName a) (nodePort a) (goalState a).

Definition primary_like_assignments (new : list Event) : list Event :=
  filter (fun e => StateIsPrimaryLike (ev_goalState e)) new.

(** ** The node table under assignments *)

(** Rows are named by (nodeName, nodePort), the key [SetNodeGoalState]
    updates by. *)
Definition node_key (n : AutoFailoverNode) : string * Z :=
  (nodeName n, nodePort n).

Definition primary_like_nodes (l : list AutoFailoverNode)
  : list AutoFailoverNode :=
  filter (fun n => StateIsPrimaryLike (goalState n)) l.

(** At most one node of the list has a goal state in the primary-like set. *)
Definition at_most_one_primary (l : list AutoFailoverNode) : Prop :=
  (List.length (primary_like_nodes l) <= 1)%nat.

(** ** Further vocabulary *)

(** What a run returns, when it returns. *)
Definition returned {A} (o : Outcome A) : option A :=
  match o with
  | Ok a _ => Some a
  | Raise _ _ => None
  end.

(** The state after one reading of the clock. *)
Definition clock_read (s : Monitor) : Monitor :=
  {| nodeTable := nodeTable s;
     formationTable := formationTable s;
     events := events s;
     logChannel := logChannel s;
     clockReads := S (clockReads s);
     assignmentTime := assignmentTime s |}.

(** The formation record that [ProceedGroupState] loads for a node. *)
Definition formationOf (s : Monitor) (n : AutoFailoverNode)
  : option AutoFailoverFormation :=
  find (fun f => String.eqb (formation_formationId f) (formationId n))
       (formationTable s).

(** The name a notification carries. *)
Definition event_key (e : Event) : string * Z :=
  (ev_nodeName e, ev_nodePort e).

(** The log messages published by one invocation of the engine. *)
Definition logged (cfg : Config) (activeNode : AutoFailoverNode)
  (s : Monitor) : list Message :=
  skipn (List.length (logChannel s))
        (logChannel (final_state (ProceedGroupState cfg activeNode s))).

(** The messages of the rules, as [LogAndNotifyMessage] builds them. *)
Definition single_message (a : AutoFailoverNode) : Message :=
  {| fmt := "Setting goal state of %s:%d to single as there is no other node.";
     args := name_port a |}.

Definition welcome_message (a P : AutoFailoverNode) : Message :=
  {| fmt := "Setting goal state of %s:%d to catchingup after %s:%d converged to wait_primary.";
     args := name_port a ++ name_port P |}.

Definition caught_up_message (a P : AutoFailoverNode) : Message :=
  {| fmt := "Setting goal state of %s:%d to primary and %s:%d to secondary after %s:%d caught up.";
     args := name_port P ++ name_port a ++ name_port a |}.

Definition failover_message (a P : AutoFailoverNode) : Message :=
  {| fmt := "Setting goal state of %s:%d to draining and %s:%d to prepare_promotion after %s:%d became unhealthy.";
     args := name_port P ++ name_port a ++ name_port P |}.

Definition coordinator_message (a P : AutoFailoverNode) : Message :=
  {| fmt := "Setting goal state of %s:%d to wait_primary and %s:%d to demoted after the coordinator metadata was updated.";
     args := name_port a ++ name_port P |}.

Definition stop_replication_message (a P : AutoFailoverNode) : Message :=
  {| fmt := "Setting goal state of %s:%d to demote_timeout and %s:%d to stop_replication after %s:%d converged to prepare_promotion.";
     args := name_port P ++ name_port a ++ name_port a |}.

Definition drained_message (a P : AutoFailoverNode) : Message :=
  {| fmt := "Setting goal state of %s:%d to wait_primary and %s:%d to demoted after the demote timeout expired.";
     args := name_port a ++ name_port P |}.

Definition rejoin_message (a P : AutoFailoverNode) : Message :=
  {| fmt := "Setting goal state of %s:%d to catchingup after it converged to demotion and %s:%d converged to wait_primary.";
     args := name_port a ++ name_port P |}.

Definition first_standby_message (a o : AutoFailoverNode) : Message :=
  {| fmt := "Setting goal state of %s:%d to wait_primary after %s:%d joined.";
     args := name_port a ++ name_port o |}.

Definition another_standby_message (a o : AutoFailoverNode) : Message :=
  {| fmt := "Setting goal state of %s:%d to join_primary after %s:%d joined.";
     args := name_port a ++ name_port o |}.

Definition settings_message (a : AutoFailoverNode) : Message :=
  {| fmt := "Setting goal state of %s:%d to primary after it applied replication properties change.";
     args := name_port a |}.

(** The test of [IsDrainTimeExpired] once the clock has been read. *)
Definition drain_expired_at (cfg : Config) (now : Z) (n : AutoFailoverNode)
  : bool :=
  ReplicationState_eqb (goalState n) REPLICATION_STATE_DEMOTE_TIMEOUT
  && TimestampDifferenceExceeds (stateChangeTime n) now (DrainTimeoutMs cfg).

(** The two assignments that hand the group over to the reporting standby. *)
Definition take_over (a P : AutoFailoverNode) (msg : Message) : list Event :=
  [state_change_event a REPLICATION_STATE_WAIT_PRIMARY msg;
   state_change_event P REPLICATION_STATE_DEMOTED msg].

(** A reporting node for which no rule of a standby can fire: it has not
    converged to its goal state, or it has converged to draining or to
    demote_timeout. *)
Definition awaits_no_rule (n : AutoFailoverNode) : Prop :=
  reportedState n <> goalState n
  \/ goalState n = REPLICATION_STATE_DRAINING
  \/ goalState n = REPLICATION_STATE_DEMOTE_TIMEOUT.

(** [publishes s s']: from [s] to [s'] events and log messages were only
    added, and the description of every event added is among the log messages
    added. *)
Definition publishes (s s' : Monitor) : Prop :=
  exists new msgs,
    events s' = events s ++ new
    /\ logChannel s' = logChannel s ++ msgs
    /\ forall e, In e new -> In (ev_description e) msgs.

(** ** Scenarios *)

Module Scenario.

(** A node of group 0 of the formation "default", listening on port 5432. *)
Definition node (id : Z) (name : string) (goal reported : ReplicationState)
  (hl : NodeHealthState) (running : bool) (lsn : Z)
  (priority : Z) (quorum : bool) : AutoFailoverNode :=
  {| formationId := "default"; nodeId := id; groupId := 0;
     nodeName := name; nodePort := 5432;
     goalState := goal; reportedState := reported;
     reportTime := 0; pgIsRunning := running;
     pgsrSyncState := SYNC_STATE_ASYNC;
     health := hl; healthCheckTime := 0; stateChangeTime := 0;
     reportedLSN := lsn;
     candidatePriority := priority; replicationQuorum := quorum |}.

Definition monitor (rows : list AutoFailoverNode) : Monitor :=
  {| nodeTable := rows;
     formationTable :=
       [ {| formation_formationId := "default"; kind := FORMATION_KIND_PLAIN |} ];
     events := [];
     logChannel := [];
     clockReads := 0%nat;
     assignmentTime := 100000000 |}.

(** Default settings; the monitor started at time 0 and it is now 100 s. *)
Definition cfg : Config := default_config 0 (fun _ => 100000000).

(** A failed primary and its standby that is not a candidate for promotion. *)
Definition failed_primary : AutoFailoverNode :=
  node 1 "a" REPLICATION_STATE_PRIMARY REPLICATION_STATE_PRIMARY
       NODE_HEALTH_BAD false 100 100 true.

Definition non_candidate_standby : AutoFailoverNode :=
  node 2 "b" REPLICATION_STATE_SECONDARY REPLICATION_STATE_SECONDARY
       NODE_HEALTH_GOOD true 100 0 false.

(** Scenario S5: a primary and two standbys, S1 unhealthy, S2 not a
    candidate. *)
Definition S5_primary : AutoFailoverNode :=
  node 1 "p" REPLICATION_STATE_PRIMARY REPLICATION_STATE_PRIMARY
       NODE_HEALTH_GOOD true 100 100 true.

Definition S5_S1 : AutoFailoverNode :=
  node 2 "s1" REPLICATION_STATE_SECONDARY REPLICATION_STATE_SECONDARY
       NODE_HEALTH_BAD false 100 100 true.

Definition S5_S2 : AutoFailoverNode :=
  node 3 "s2" REPLICATION_STATE_SECONDARY REPLICATION_STATE_SECONDARY
       NODE_HEALTH_GOOD true 100 0 false.

Definition S5 : Monitor := monitor [S5_primary; S5_S1; S5_S2].

(** A primary with one healthy standby that is a quorum candidate. *)
Definition healthy_standby : AutoFailoverNode :=
  node 2 "s1" REPLICATION_STATE_SECONDARY REPLICATION_STATE_SECONDARY
       NODE_HEALTH_GOOD true 100 100 true.

Definition all_healthy : Monitor := monitor [S5_primary; healthy_standby].

(** A standby that has converged to prepare_promotion next to the primary
    that is being drained. *)
Definition draining_primary : AutoFailoverNode :=
  node 1 "a" REPLICATION_STATE_DRAINING REPLICATION_STATE_PRIMARY
       NODE_HEALTH_BAD false 100 100 true.

Definition promoted_standby : AutoFailoverNode :=
  node 2 "b" REPLICATION_STATE_PREPARE_PROMOTION
       REPLICATION_STATE_PREPARE_PROMOTION
       NODE_HEALTH_GOOD true 100 100 true.

Definition promotion : Monitor := monitor [draining_primary; promoted_standby].

(** Two standbys and no primary-like node at all. *)
Definition orphan1 : AutoFailoverNode :=
  node 1 "a" REPLICATION_STATE_SECONDARY REPLICATION_STATE_SECONDARY
       NODE_HEALTH_GOOD true 100 100 true.

Definition orphan2 : AutoFailoverNode :=
  node 2 "b" REPLICATION_STATE_CATCHINGUP REPLICATION_STATE_CATCHINGUP
       NODE_HEALTH_GOOD true 100 100 true.

Definition orphans : Monitor := monitor [orphan1; orphan2].

(** Three nodes: the former primary, whose drain time has expired; the
    standby that reports stop_replication; and a third node that was already
    given wait_primary. *)
Definition former_primary : AutoFailoverNode :=
  node 1 "a" REPLICATION_STATE_DEMOTE_TIMEOUT REPLICATION_STATE_PRIMARY
       NODE_HEALTH_BAD false 100 100 true.

Definition stopped_standby : AutoFailoverNode :=
  node 2 "b" REPLICATION_STATE_STOP_REPLICATION
       REPLICATION_STATE_STOP_REPLICATION
       NODE_HEALTH_GOOD true 100 100 true.

Definition third_node : AutoFailoverNode :=
  node 3 "c" REPLICATION_STATE_WAIT_PRIMARY REPLICATION_STATE_STOP_REPLICATION
       NODE_HEALTH_GOOD true 100 100 true.

Definition two_promotions : Monitor :=
  monitor [former_primary; stopped_standby; third_node].

(** Two nodes whose replay positions are 99999999 bytes apart, with the
    first one ahead. *)
Definition ahead : AutoFailoverNode :=
  node 2 "b" REPLICATION_STATE_SECONDARY REPLICATION_STATE_SECONDARY
       NODE_HEALTH_GOOD true 100000000 100 true.

Definition behind : AutoFailoverNode :=
  node 1 "a" REPLICATION_STATE_PRIMARY REPLICATION_STATE_PRIMARY
       NODE_HEALTH_GOOD true 1 100 true.

(** Scenario S1: a single node and a standby that wants to join. *)
Definition single_node : AutoFailoverNode :=
  node 1 "a" REPLICATION_STATE_SINGLE REPLICATION_STATE_SINGLE
       NODE_HEALTH_GOOD true 100 100 true.

Definition joining_standby : AutoFailoverNode :=
  node 2 "b" REPLICATION_STATE_WAIT_STANDBY REPLICATION_STATE_WAIT_STANDBY
       NODE_HEALTH_GOOD true 0 100 true.

(** Scenario S2: the primary has failed, the standby is a candidate. *)
Definition candidate_standby : AutoFailoverNode :=
  node 2 "b" REPLICATION_STATE_SECONDARY REPLICATION_STATE_SECONDARY
       NODE_HEALTH_GOOD true 100 100 true.

(** Scenario S4: the former primary is back, demoted, next to the new
    primary. *)
Definition demoted_primary : AutoFailoverNode :=
  node 1 "a" REPLICATION_STATE_DEMOTED REPLICATION_STATE_DEMOTED
       NODE_HEALTH_GOOD true 100 100 true.

Definition new_primary : AutoFailoverNode :=
  node 2 "b" REPLICATION_STATE_WAIT_PRIMARY REPLICATION_STATE_WAIT_PRIMARY
       NODE_HEALTH_GOOD true 100 100 true.

(** Scenario S6: the primary has applied new replication settings. *)
Definition settings_applied : AutoFailoverNode :=
  node 1 "p" REPLICATION_STATE_APPLY_SETTINGS REPLICATION_STATE_APPLY_SETTINGS
       NODE_HEALTH_GOOD true 100 100 true.

(** What a run returns, and the goal state of every row after it. *)
Definition goals (o : Outcome bool)
  : option bool * list (string * ReplicationState) :=
  (match o with Ok b _ => Some b | Raise _ _ => None end,
   map (fun n => (nodeName n, goalState n)) (nodeTable (final_state o))).

(** Scenario S1, last step: the standby has caught up with a primary that
    waits for it. *)
Definition waiting_primary : AutoFailoverNode :=
  node 1 "a" REPLICATION_STATE_WAIT_PRIMARY REPLICATION_STATE_WAIT_PRIMARY
       NODE_HEALTH_GOOD true 100 100 true.

Definition caught_up_standby : AutoFailoverNode :=
  node 2 "b" REPLICATION_STATE_CATCHINGUP REPLICATION_STATE_CATCHINGUP
       NODE_HEALTH_GOOD true 100 100 true.

Definition catching_up : Monitor :=
  monitor [waiting_primary; caught_up_standby].

End Scenario.

(** ** More scenarios *)

Module Cases.

(** A standby that was given prepare_promotion and still reports
    secondary. *)
Definition in_transit : AutoFailoverNode :=
  Scenario.node 2 "b" REPLICATION_STATE_PREPARE_PROMOTION
    REPLICATION_STATE_SECONDARY NODE_HEALTH_GOOD true 100 100 true.

(** A primary, an unhealthy secondary, and a new node that waits to join. *)
Definition newcomer : AutoFailoverNode :=
  Scenario.node 3 "s3" REPLICATION_STATE_WAIT_STANDBY
    REPLICATION_STATE_WAIT_STANDBY NODE_HEALTH_GOOD true 0 100 true.

Definition joining : Monitor :=
  Scenario.monitor [Scenario.S5_primary; Scenario.S5_S1; newcomer].

(** A primary with an unhealthy secondary and a healthy candidate. *)
Definition healthy_candidate : AutoFailoverNode :=
  Scenario.node 3 "s2" REPLICATION_STATE_SECONDARY REPLICATION_STATE_SECONDARY
    NODE_HEALTH_GOOD true 100 100 true.

Definition one_candidate_left : Monitor :=
  Scenario.monitor
    [Scenario.S5_primary; Scenario.S5_S1; healthy_candidate].

(** A node of another group, under another name. *)
Definition elsewhere : AutoFailoverNode :=
  {| formationId := "default"; nodeId := 7; groupId := 1;
     nodeName := "z"; nodePort := 5432;
     goalState := REPLICATION_STATE_SINGLE;
     reportedState := REPLICATION_STATE_SINGLE;
     reportTime := 0; pgIsRunning := true;
     pgsrSyncState := SYNC_STATE_ASYNC;
     health := NODE_HEALTH_GOOD; healthCheckTime := 0; stateChangeTime := 0;
     reportedLSN := 100;
     candidatePriority := 100; replicationQuorum := true |}.

Definition two_groups : Monitor :=
  Scenario.monitor
    [Scenario.failed_primary; Scenario.candidate_standby; elsewhere].

(** The group of three after a failover: the former primary waits out its
    demote timeout, one standby has stopped replication and a third node has
    stayed a secondary. *)
Definition bystander : AutoFailoverNode :=
  Scenario.node 3 "c" REPLICATION_STATE_SECONDARY REPLICATION_STATE_SECONDARY
    NODE_HEALTH_GOOD true 100 100 true.

Definition handover : Monitor :=
  Scenario.monitor
    [Scenario.former_primary; Scenario.stopped_standby; bystander].

(** A node left alone in its group after the others were removed. *)
Definition left_alone : Monitor :=
  Scenario.monitor [Scenario.candidate_standby].

(** A node whose health check is bad and whose last report is old, with
    PostgreSQL running, five seconds after the monitor started. *)
Definition silent : AutoFailoverNode :=
  {| formationId := "default"; nodeId := 2; groupId := 0;
     nodeName := "b"; nodePort := 5432;
     goalState := REPLICATION_STATE_SECONDARY;
     reportedState := REPLICATION_STATE_SECONDARY;
     reportTime := -100000000; pgIsRunning := true;
     pgsrSyncState := SYNC_STATE_ASYNC;
     health := NODE_HEALTH_BAD; healthCheckTime := 1000000;
     stateChangeTime := 0;
     reportedLSN := 100;
     candidatePriority := 100; replicationQuorum := true |}.

Definition just_started : Config := default_config 0 (fun _ => 5000000).

End Cases.

(** ** Proof automation *)

(** Unfolds the monad of a piece of engine code down to its conditions. *)
Ltac run_monad :=
  unfold andM, orM, IsUnhealthy, IsDrainTimeExpired, AssignGoalState;
  unfold GetCurrentTimestamp, LogAndNotifyMessage, SetNodeGoalState,
    NotifyStateChange;
  unfold bind, ret; simpl.

Ltac split_conditions :=
  repeat match goal with
         | H : _ && _ = true |- _ => apply andb_prop in H; destruct H
         end.

Ltac extends_by_computation :=
  first [ split; simpl; [rewrite <- ?app_assoc; reflexivity | reflexivity ..]
        | split; simpl; [symmetry; apply app_nil_r | reflexivity ..] ].

(** Closes a branch of the engine with the rule that fired in it. *)
Ltac fired :=
  do 3 eexists; (split; [reflexivity|]); (split; [extends_by_computation|]);
  once (econstructor; solve [eauto using orb_true_intro]).

(** Case analysis on the rule behind the assignments of an invocation. *)
Ltac invert_decision Hdec :=
  inversion Hdec;
  match goal with
  | H : _ = assignments _ _ _ |- _ => rewrite <- H in *; clear H
  end.

Ltac which_assignment Hin :=
  simpl in Hin;
  repeat match goal with
         | H : _ \/ _ |- _ => destruct H
         | H : False |- _ => destruct H
         end.

(** [Hin] puts among the assignments of rule R12 an event that carries another
    goal state; [inR12] is the lemma that lists those assignments. *)
Ltac not_in_R12 inR12 Hin :=
  let o := fresh "o" in
  apply inR12 in Hin;
  destruct Hin as [(o & _ & ->) | ->]; discriminate.

Ltac not_primary_like Hgoal :=
  match goal with
  | H : StateIsPrimaryLike _ = true |- _ => rewrite Hgoal in H; discriminate
  end.

(** * The scenarios of the specification, run on the engine *)

Example S1_first_standby_joins :
  Scenario.goals
    (ProceedGroupState Scenario.cfg Scenario.single_node
       (Scenario.monitor [Scenario.single_node; Scenario.joining_standby]))
  = (Some true, [("a", REPLICATION_STATE_WAIT_PRIMARY);
                 ("b", REPLICATION_STATE_WAIT_STANDBY)]).
Proof. reflexivity. Qed.

Example S1_standby_admitted :
  Scenario.goals
    (ProceedGroupState Scenario.cfg Scenario.joining_standby
       (Scenario.monitor [Scenario.waiting_primary; Scenario.joining_standby]))
  = (Some true, [("a", REPLICATION_STATE_WAIT_PRIMARY);
                 ("b", REPLICATION_STATE_CATCHINGUP)]).
Proof. reflexivity. Qed.

Example S1_caught_up :
  Scenario.goals
    (ProceedGroupState Scenario.cfg Scenario.caught_up_standby
       Scenario.catching_up)
  = (Some true, [("a", REPLICATION_STATE_PRIMARY);
                 ("b", REPLICATION_STATE_SECONDARY)]).
Proof. reflexivity. Qed.

Example S2_primary_failed :
  Scenario.goals
    (ProceedGroupState Scenario.cfg Scenario.candidate_standby
       (Scenario.monitor [Scenario.failed_primary; Scenario.candidate_standby]))
  = (Some true, [("a", REPLICATION_STATE_DRAINING);
                 ("b", REPLICATION_STATE_PREPARE_PROMOTION)]).
Proof. reflexivity. Qed.

Example S3_promotion_commit :
  Scenario.goals
    (ProceedGroupState Scenario.cfg Scenario.promoted_standby
       Scenario.promotion)
  = (Some true, [("a", REPLICATION_STATE_DEMOTE_TIMEOUT);
                 ("b", REPLICATION_STATE_STOP_REPLICATION)]).
Proof. reflexivity. Qed.

Example S3_drain_complete :
  Scenario.goals
    (ProceedGroupState Scenario.cfg Scenario.stopped_standby
       (Scenario.monitor [Scenario.former_primary; Scenario.stopped_standby]))
  = (Some true, [("a", REPLICATION_STATE_DEMOTED);
                 ("b", REPLICATION_STATE_WAIT_PRIMARY)]).
Proof. reflexivity. Qed.

Example S4_rejoin :
  Scenario.goals
    (ProceedGroupState Scenario.cfg Scenario.demoted_primary
       (Scenario.monitor [Scenario.demoted_primary; Scenario.new_primary]))
  = (Some true, [("a", REPLICATION_STATE_CATCHINGUP);
                 ("b", REPLICATION_STATE_WAIT_PRIMARY)]).
Proof. reflexivity. Qed.

Example S6_settings_applied :
  Scenario.goals
    (ProceedGroupState Scenario.cfg Scenario.settings_applied
       (Scenario.monitor [Scenario.settings_applied; Scenario.healthy_standby]))
  = (Some true, [("p", REPLICATION_STATE_PRIMARY);
                 ("s1", REPLICATION_STATE_SECONDARY)]).
Proof. reflexivity. Qed.

(** * Lemmas *)

(** ** The node table *)

Lemma is_node_true name port n :
  is_node name port n = true <-> node_key n = (name, port).
Proof.
  unfold is_node, node_key. rewrite andb_true_iff, String.eqb_eq, Z.eqb_eq.
  split; [intros [-> ->]; reflexivity | intros [= -> ->]; auto].
Qed.

Lemma is_node_self n : is_node (nodeName n) (nodePort n) n = true.
Proof. now apply is_node_true. Qed.

Lemma update_goalState_keys now name port st l :
  map node_key (update_goalState now name port st l) = map node_key l.
Proof.
  unfold update_goalState. rewrite map_map. apply map_ext.
  intro n. now destruct (is_node name port n).
Qed.

Lemma update_goalState_length now name port st l :
  List.length (update_goalState now name port st l) = List.length l.
Proof. apply length_map. Qed.

Lemma update_goalState_group now fid gid name port st l :
  filter (in_group fid gid) (update_goalState now name port st l)
  = update_goalState now name port st (filter (in_group fid gid) l).
Proof.
  induction l as [|n l IH]; simpl; [reflexivity|].
  replace (in_group fid gid
             (if is_node name port n then set_goalState now st n else n))
    with (in_group fid gid n) by now destruct (is_node name port n).
  destruct (in_group fid gid n); simpl; now rewrite IH.
Qed.

Lemma apply_events_group now fid gid new : forall l,
  filter (in_group fid gid) (apply_events now new l)
  = apply_events now new (filter (in_group fid gid) l).
Proof.
  induction new as [|e new IH]; intro l; [reflexivity|].
  change (apply_events now (e :: new) l)
    with (apply_events now new (apply_event now l e)).
  rewrite IH. unfold apply_event.
  now rewrite update_goalState_group.
Qed.

Lemma In_update_goalState now name port st l r :
  In r (update_goalState now name port st l) ->
  exists r0, In r0 l
    /\ r = (if is_node name port r0 then set_goalState now st r0 else r0).
Proof.
  unfold update_goalState. rewrite in_map_iff.
  intros (r0 & <- & H). eauto.
Qed.

Lemma update_goalState_keeps now name port st l n :
  In n l -> is_node name port n = false ->
  In n (update_goalState now name port st l).
Proof.
  intros Hin Hn. unfold update_goalState. apply in_map_iff.
  exists n. now rewrite Hn.
Qed.

Lemma same_key_same_node l : forall n m,
  NoDup (map node_key l) -> In n l -> In m l ->
  node_key n = node_key m -> n = m.
Proof.
  induction l as [|h l IH]; intros n m Hnd Hn Hm Hk; [destruct Hn|].
  inversion Hnd as [|? ? Hh Hnd']; subst.
  destruct Hn as [-> | Hn], Hm as [-> | Hm]; auto.
  - exfalso. apply Hh. rewrite Hk. now apply in_map.
  - exfalso. apply Hh. rewrite <- Hk. now apply in_map.
Qed.

Lemma NoDup_keys_filter f l :
  NoDup (map node_key l) -> NoDup (map node_key (filter f l)).
Proof.
  induction l as [|h l IH]; simpl; intro Hnd; [constructor|].
  inversion Hnd as [|? ? Hh Hnd']; subst.
  destruct (f h); simpl; auto.
  constructor; auto.
  intro Hin. apply Hh. apply in_map_iff in Hin.
  destruct Hin as (x & Hx & Hin). apply filter_In in Hin.
  apply in_map_iff. exists x. tauto.
Qed.

Lemma primary_like_nodes_bound l :
  (List.length (primary_like_nodes l) <= List.length l)%nat.
Proof.
  induction l as [|h l IH]; simpl; [lia|].
  destruct (StateIsPrimaryLike (goalState h)); simpl; lia.
Qed.

(** Assigning a state outside the primary-like set adds no primary. *)
Lemma update_not_primary_like now name port st l :
  StateIsPrimaryLike st = false ->
  (List.length (primary_like_nodes (update_goalState now name port st l))
   <= List.length (primary_like_nodes l))%nat.
Proof.
  intro Hst. induction l as [|h l IH]; simpl; [lia|].
  destruct (is_node name port h); simpl.
  - rewrite Hst. destruct (StateIsPrimaryLike (goalState h)); simpl; lia.
  - destruct (StateIsPrimaryLike (goalState h)); simpl; lia.
Qed.

Lemma update_no_such_node now name port st l :
  ~ In (name, port) (map node_key l) ->
  update_goalState now name port st l = l.
Proof.
  induction l as [|h l IH]; simpl; intro Hk; [reflexivity|].
  destruct (is_node name port h) eqn:Hh.
  - apply is_node_true in Hh. tauto.
  - f_equal. apply IH. tauto.
Qed.

(** Assigning a primary-like state to the node that holds a primary-like goal
    state keeps the number of primaries. *)
Lemma update_primary_like now n st l :
  NoDup (map node_key l) -> In n l ->
  StateIsPrimaryLike (goalState n) = true -> StateIsPrimaryLike st = true ->
  List.length (primary_like_nodes
                 (update_goalState now (nodeName n) (nodePort n) st l))
  = List.length (primary_like_nodes l).
Proof.
  intros Hnd Hin Hn Hst.
  induction l as [|h l IH]; [destruct Hin|].
  inversion Hnd as [|? ? Hh Hnd']; subst. simpl.
  destruct (is_node (nodeName n) (nodePort n) h) eqn:Hk.
  - apply is_node_true in Hk.
    assert (h = n) as ->.
    { apply (same_key_same_node (h :: l)); simpl; auto. }
    rewrite update_no_such_node by exact Hh.
    simpl. now rewrite Hst, Hn.
  - destruct Hin as [-> | Hin]; [now rewrite is_node_self in Hk|].
    specialize (IH Hnd' Hin).
    destruct (StateIsPrimaryLike (goalState h)); simpl; now rewrite IH.
Qed.

(** When every primary of a list goes by one name, there is at most one. *)
Lemma one_key_one_primary k l :
  NoDup (map node_key l) ->
  (forall r, In r l -> StateIsPrimaryLike (goalState r) = true ->
             node_key r = k) ->
  at_most_one_primary l.
Proof.
  unfold at_most_one_primary.
  induction l as [|h l IH]; simpl; intros Hnd Hk; [lia|].
  inversion Hnd as [|? ? Hh Hnd']; subst.
  destruct (StateIsPrimaryLike (goalState h)) eqn:Hp; simpl.
  - assert (primary_like_nodes l = []) as ->; [|simpl; lia].
    assert (Hnone : forall r, In r l ->
                      StateIsPrimaryLike (goalState r) = false).
    { intros r Hr. destruct (StateIsPrimaryLike (goalState r)) eqn:Hpr; auto.
      exfalso. apply Hh. rewrite (Hk h), <- (Hk r); auto.
      now apply in_map. }
    clear - Hnone. induction l as [|x l IH]; simpl; [reflexivity|].
    rewrite (Hnone x) by (simpl; auto). apply IH.
    intros r Hr. apply Hnone. simpl; auto.
  - apply IH; auto.
Qed.

Lemma apply_events_keys now new : forall l,
  map node_key (apply_events now new l) = map node_key l.
Proof.
  induction new as [|e new IH]; intro l; [reflexivity|].
  change (apply_events now (e :: new) l)
    with (apply_events now new (apply_event now l e)).
  rewrite IH. apply update_goalState_keys.
Qed.

Lemma apply_events_app now new1 new2 l :
  apply_events now (new1 ++ new2) l
  = apply_events now new2 (apply_events now new1 l).
Proof. apply fold_left_app. Qed.

Lemma in_group_self n : in_group (formationId n) (groupId n) n = true.
Proof. unfold in_group. now rewrite String.eqb_refl, Z.eqb_refl. Qed.

Lemma IsInPrimaryState_goal n :
  IsInPrimaryState n = true -> StateIsPrimaryLike (goalState n) = true.
Proof. unfold IsInPrimaryState. intro H. now apply andb_prop in H. Qed.

Lemma IsCurrentState_eq n st :
  IsCurrentState n st = true -> reportedState n = st /\ goalState n = st.
Proof.
  unfold IsCurrentState.
  destruct (reportedState n), (goalState n), st; simpl; intuition congruence.
Qed.

Lemma apply_events_nil now l : apply_events now [] l = l.
Proof. reflexivity. Qed.

Lemma apply_events_cons now e new l :
  apply_events now (e :: new) l = apply_events now new (apply_event now l e).
Proof. reflexivity. Qed.

Lemma apply_event_state_change now l n st msg :
  apply_event now l (state_change_event n st msg)
  = update_goalState now (nodeName n) (nodePort n) st l.
Proof. reflexivity. Qed.

(** From here on [simpl] leaves the predicates of the engine folded. *)
#[local] Arguments unhealthy_at : simpl never.
#[local] Arguments IsCurrentState : simpl never.
#[local] Arguments IsInPrimaryState : simpl never.
#[local] Arguments IsHealthy : simpl never.
#[local] Arguments WalDifferenceWithin : simpl never.
#[local] Arguments IsCitusFormation : simpl never.
#[local] Arguments update_goalState : simpl never.
#[local] Arguments state_change_event : simpl never.
#[local] Arguments name_port : simpl never.
#[local] Arguments Z.sub : simpl never.
#[local] Arguments Z.add : simpl never.
#[local] Arguments Z.eqb : simpl never.
#[local] Arguments Z.of_nat : simpl never.

(** ** The engine *)

Lemma extends_refl s : extends s s [].
Proof. split; simpl; auto using app_nil_r. Qed.

Lemma R12_decrements_bounds cfg O : forall t,
  0 <= R12_decrements cfg t O <= Z.of_nat (List.length O).
Proof.
  induction O as [|o rest IH]; intro t; simpl R12_decrements.
  - simpl. lia.
  - specialize (IH (next_read t o)).
    change (List.length (o :: rest)) with (S (List.length rest)).
    destruct (unhealthy_secondary cfg (clock cfg t) o || not_a_candidate o); lia.
Qed.

(** One iteration of the loop, on the assignments. *)
Lemma R12_assignments_cons cfg p t o rest count :
  Z.of_nat (S (List.length rest)) <= count ->
  let count' :=
    if unhealthy_secondary cfg (clock cfg t) o || not_a_candidate o
    then count - 1 else count in
  R12_assignments cfg p t (o :: rest) count =
    ((if unhealthy_secondary cfg (clock cfg t) o
      then [catchingup_event o] else [])
     ++ (if count' =? 0 then [wait_primary_event p] else []))
    ++ R12_assignments cfg p (next_read t o) rest count'.
Proof.
  intros Hc count'. unfold R12_assignments.
  simpl R12_unhealthy. simpl R12_decrements.
  pose proof (R12_decrements_bounds cfg rest (next_read t o)) as Hb.
  rewrite map_app, <- !app_assoc. f_equal.
  - now destruct (unhealthy_secondary cfg (clock cfg t) o).
  - replace (count - (_ + R12_decrements cfg (next_read t o) rest))
      with (count' - R12_decrements cfg (next_read t o) rest)
      by (unfold count';
          destruct (unhealthy_secondary cfg (clock cfg t) o || not_a_candidate o);
          lia).
    destruct rest as [|o' rest'].
    + simpl. rewrite Z.sub_0_r.
      destruct (count' =? 0); reflexivity.
    + replace (count' =? 0) with false; [reflexivity|].
      symmetry. apply Z.eqb_neq.
      change (List.length (o' :: rest')) with (S (List.length rest')) in Hc.
      unfold count'.
      destruct (unhealthy_secondary cfg (clock cfg t) o || not_a_candidate o);
        lia.
Qed.

Lemma foreach_otherNode_unhealthy_run cfg primaryNode O : forall count s,
  Z.of_nat (List.length O) <= count ->
  exists s',
    foreach_otherNode_unhealthy cfg primaryNode O count s = Ok tt s'
    /\ extends s s' (R12_assignments cfg primaryNode (clockReads s) O count).
Proof.
  induction O as [|o rest IH]; intros count s Hc.
  - exists s. split; [reflexivity|]. apply extends_refl.
  - change (List.length (o :: rest)) with (S (List.length rest)) in Hc.
    rewrite R12_assignments_cons by exact Hc.
    simpl foreach_otherNode_unhealthy.
    unfold unhealthy_secondary, next_read, not_a_candidate.
    run_monad.
    destruct (IsCurrentState o REPLICATION_STATE_SECONDARY); simpl;
      [destruct (unhealthy_at cfg (clock cfg (clockReads s)) (Some o)); simpl|];
      try destruct (negb (replicationQuorum o) || (candidatePriority o =? 0));
      simpl;
      match goal with
      | |- context [if ?c =? 0 then _ else _] => destruct (c =? 0); simpl
      end;
      match goal with
      | |- exists s', foreach_otherNode_unhealthy _ _ _ ?c ?s1 = _ /\ _ =>
          destruct (IH c s1) as (s' & Hrun & Hext); [lia|];
          exists s'; split; [exact Hrun|];
          destruct Hext as [E N F T]; simpl in E, N, F, T;
          split;
          [rewrite E, <- ?app_assoc | rewrite N | rewrite F | rewrite T];
          reflexivity
      end.
Qed.

Lemma ProceedGroupState_with_primary_decision cfg formation a P s :
  IsInPrimaryState a = false ->
  primaryNodeInGroup s a = Some P ->
  exists b s' new,
    ProceedGroupState_with_primary cfg formation a P s = Ok b s'
    /\ extends s s' new
    /\ decision cfg a s b new.
Proof.
  intros Ha HP.
  unfold ProceedGroupState_with_primary. run_monad.
  repeat match goal with
         | |- context [if ?c then _ else _] => destruct c eqn:?; simpl
         end;
  split_conditions;
  do 3 eexists; (split; [reflexivity|]); (split; [extends_by_computation|]);
  solve [ econstructor; eauto using orb_true_intro ].
Qed.

Lemma IsCurrentState_IsInPrimaryState n st :
  IsCurrentState n st = true -> StateIsPrimaryLike st = true ->
  IsInPrimaryState n = true.
Proof.
  unfold IsCurrentState, IsInPrimaryState.
  destruct (reportedState n), (goalState n), st; simpl; congruence.
Qed.

Lemma ProceedGroupStateForPrimaryNode_decision cfg a s :
  IsInPrimaryState a = true ->
  exists b s' new,
    ProceedGroupStateForPrimaryNode cfg a s = Ok b s'
    /\ extends s s' new
    /\ decision cfg a s b new.
Proof.
  intros Ha.
  unfold ProceedGroupStateForPrimaryNode, AutoFailoverOtherNodesList,
    AutoFailoverNodeGroup.
  run_monad.
  fold (nodesGroup s a). fold (otherNodes s a).
  assert (Hloop : exists b s' new,
    match foreach_otherNode_unhealthy cfg a (otherNodes s a)
            (Z.of_nat (List.length (otherNodes s a))) s with
    | Ok _ s'0 => Ok true s'0
    | Raise e s'0 => Raise e s'0
    end = Ok b s' /\ extends s s' new /\
    (IsCurrentState a REPLICATION_STATE_PRIMARY = true -> decision cfg a s b new)).
  { destruct (foreach_otherNode_unhealthy_run cfg a (otherNodes s a)
              (Z.of_nat (List.length (otherNodes s a))) s (Z.le_refl _))
        as (s' & Hrun & Hext).
    rewrite Hrun. do 3 eexists. split; [reflexivity|].
    split; [exact Hext|]. apply standby_health. }
  destruct Hloop as (b & s' & new & Hrun & Hext & Hdec).
  destruct (first_wait_standby (otherNodes s a));
    destruct (IsCurrentState a REPLICATION_STATE_SINGLE) eqn:Hsingle;
    destruct (IsCurrentState a REPLICATION_STATE_PRIMARY) eqn:Hprimary;
    destruct (IsCurrentState a REPLICATION_STATE_APPLY_SETTINGS) eqn:Happly;
    simpl;
    first [ fired | exists b, s', new; now auto ].
Qed.

(** Every invocation either returns after the assignments of one rule, or
    raises the error of the missing primary node before any assignment. *)
Lemma ProceedGroupState_decision cfg a s :
  (exists b s' new,
     ProceedGroupState cfg a s = Ok b s'
     /\ extends s s' new
     /\ decision cfg a s b new)
  \/ (ProceedGroupState cfg a s = Raise (primary_not_found a) s
      /\ IsInPrimaryState a = false
      /\ primaryNodeInGroup s a = None).
Proof.
  unfold ProceedGroupState, GetFormation, AutoFailoverNodeGroup,
    GetPrimaryNodeInGroup, AutoFailoverNodeGroup, ereport.
  run_monad.
  change (filter (in_group (formationId a) (groupId a)) (nodeTable s))
    with (nodesGroup s a).
  destruct ((Z.of_nat (List.length (nodesGroup s a)) =? 1)
            && negb (IsCurrentState a REPLICATION_STATE_SINGLE)) eqn:Hsole.
  - left. split_conditions.
    do 3 eexists. split; [reflexivity|]. split; [extends_by_computation|].
    apply sole_node. apply Z.eqb_eq in H. lia.
  - destruct (IsInPrimaryState a) eqn:Ha.
    + left. now apply ProceedGroupStateForPrimaryNode_decision.
    + simpl.
      change (find is_primary_candidate
                (filter (in_group (formationId a) (groupId a)) (nodeTable s)))
        with (primaryNodeInGroup s a).
      destruct (primaryNodeInGroup s a) as [P|] eqn:HP.
      * left. now apply ProceedGroupState_with_primary_decision.
      * right. auto.
Qed.

Lemma skipn_length_app {A} (l new : list A) :
  skipn (List.length l) (l ++ new) = new.
Proof. induction l; simpl; auto. Qed.

Lemma assignments_decision cfg a s :
  exists b,
    decision cfg a s b (assignments cfg a s)
    /\ extends s (final_state (ProceedGroupState cfg a s)) (assignments cfg a s).
Proof.
  unfold assignments.
  destruct (ProceedGroupState_decision cfg a s)
    as [(b & s' & new & Hrun & Hext & Hdec) | (Hrun & _)]; rewrite Hrun; simpl.
  - exists b. rewrite (ext_events _ _ _ Hext), skipn_length_app. auto.
  - exists false.
    replace (skipn (List.length (events s)) (events s)) with (@nil Event)
      by (rewrite <- (app_nil_r (events s)) at 2; now rewrite skipn_length_app).
    split; [constructor | apply extends_refl].
Qed.

Lemma R12_unhealthy_incl cfg O : forall t o,
  In o (R12_unhealthy cfg t O) -> In o O.
Proof.
  induction O as [|o' rest IH]; intros t o; simpl; [tauto|].
  rewrite in_app_iff. intros [H|H].
  - destruct (unhealthy_secondary cfg (clock cfg t) o'); simpl in H; tauto.
  - right. eapply IH, H.
Qed.

Lemma In_R12_assignments cfg p t O count e :
  In e (R12_assignments cfg p t O count) ->
  (exists o, In o O /\ e = catchingup_event o) \/ e = wait_primary_event p.
Proof.
  unfold R12_assignments. rewrite in_app_iff, in_map_iff.
  intros [(o & <- & Ho) | H].
  - left. exists o. eauto using R12_unhealthy_incl.
  - right. destruct (_ && _); simpl in H; intuition.
Qed.

Lemma primary_like_catchingup l :
  primary_like_assignments (map catchingup_event l) = [].
Proof. induction l; simpl; auto. Qed.

Lemma R12_assignments_primary_like cfg p t O count :
  (List.length (primary_like_assignments (R12_assignments cfg p t O count))
   <= 1)%nat.
Proof.
  unfold R12_assignments, primary_like_assignments.
  rewrite filter_app.
  fold (primary_like_assignments (map catchingup_event (R12_unhealthy cfg t O))).
  rewrite primary_like_catchingup.
  destruct (_ && _); simpl; lia.
Qed.

Lemma IsHealthy_not_unhealthy cfg now n :
  IsHealthy (Some n) = true -> unhealthy_at cfg now (Some n) = false.
Proof.
  unfold IsHealthy, unhealthy_at. intro H. apply andb_prop in H.
  destruct H as [Hh Hr].
  destruct (health n); try discriminate.
  destruct (pgIsRunning n); try discriminate.
  simpl. now rewrite andb_false_r.
Qed.

Lemma first_wait_standby_none O :
  (forall o, In o O ->
             IsCurrentState o REPLICATION_STATE_WAIT_STANDBY = false) ->
  first_wait_standby O = None.
Proof.
  intro H. unfold first_wait_standby.
  destruct (find _ O) as [o|] eqn:Hf; [|reflexivity].
  apply find_some in Hf. destruct Hf as [Hin Ho].
  rewrite (H o Hin) in Ho. discriminate.
Qed.

Lemma IsCurrentState_unique n st st' :
  IsCurrentState n st = true -> st <> st' -> IsCurrentState n st' = false.
Proof.
  intros H Hne. apply IsCurrentState_eq in H. destruct H as [Hr Hg].
  unfold IsCurrentState. rewrite Hr.
  destruct st, st'; simpl; congruence.
Qed.

(** When rule R12 is reached: the run of the engine on a converged primary
    with no standby waiting to join, in a group that is not a sole node. *)
Lemma ProceedGroupState_standby_health cfg a s :
  IsCurrentState a REPLICATION_STATE_PRIMARY = true ->
  first_wait_standby (otherNodes s a) = None ->
  List.length (nodesGroup s a) <> 1%nat ->
  exists s',
    ProceedGroupState cfg a s = Ok true s'
    /\ extends s s'
         (R12_assignments cfg a (clockReads s) (otherNodes s a)
            (Z.of_nat (List.length (otherNodes s a)))).
Proof.
  intros Ha Hws Hlen.
  destruct (foreach_otherNode_unhealthy_run cfg a (otherNodes s a)
              (Z.of_nat (List.length (otherNodes s a))) s (Z.le_refl _))
    as (s' & Hrun & Hext).
  exists s'. split; [|exact Hext].
  unfold ProceedGroupState, GetFormation, AutoFailoverNodeGroup.
  run_monad.
  change (filter (in_group (formationId a) (groupId a)) (nodeTable s))
    with (nodesGroup s a).
  replace (Z.of_nat (List.length (nodesGroup s a)) =? 1) with false
    by (symmetry; apply Z.eqb_neq; lia).
  simpl.
  rewrite (IsCurrentState_IsInPrimaryState a _ Ha eq_refl).
  unfold ProceedGroupStateForPrimaryNode, AutoFailoverOtherNodesList,
    AutoFailoverNodeGroup.
  run_monad.
  change (filter (fun o => negb (nodeId o =? nodeId a))
            (filter (in_group (formationId a) (groupId a)) (nodeTable s)))
    with (otherNodes s a).
  rewrite (IsCurrentState_unique a _ REPLICATION_STATE_SINGLE Ha)
    by discriminate.
  rewrite Ha, Hws, Hrun. reflexivity.
Qed.

(** With healthy quorum candidates only, rule R12 assigns nothing. *)
Lemma R12_all_candidates cfg O : forall t,
  (forall o, In o O ->
     IsHealthy (Some o) = true
     /\ replicationQuorum o = true /\ candidatePriority o <> 0) ->
  R12_unhealthy cfg t O = [] /\ R12_decrements cfg t O = 0.
Proof.
  induction O as [|o rest IH]; intros t H; simpl; [auto|].
  destruct (H o) as (Hh & Hq & Hp); [simpl; auto|].
  destruct (IH (next_read t o)) as [-> ->]; [intros; apply H; simpl; auto|].
  unfold unhealthy_secondary, not_a_candidate.
  rewrite (IsHealthy_not_unhealthy cfg _ o Hh), andb_false_r, Hq.
  apply Z.eqb_neq in Hp. rewrite Hp. auto.
Qed.

Lemma apply_events_other_goal now st new : forall l r,
  (forall e, In e new -> ev_goalState e <> st) ->
  In r (apply_events now new l) -> goalState r = st -> In r l.
Proof.
  induction new as [|e new IH]; intros l r Hnew Hin Hr; [exact Hin|].
  rewrite apply_events_cons in Hin.
  apply IH in Hin; [|intros; apply Hnew; simpl; auto | exact Hr].
  apply In_update_goalState in Hin. destruct Hin as (r0 & Hr0 & ->).
  destruct (is_node _ _ r0); [|exact Hr0].
  exfalso. apply (Hnew e); simpl; auto.
Qed.

(** The rows that hold stop_replication after an invocation. *)
Lemma stop_replication_rows cfg activeNode s r :
  NoDup (map node_key (nodeTable s)) ->
  In activeNode (nodeTable s) ->
  In r (nodeTable (final_state (ProceedGroupState cfg activeNode s))) ->
  goalState r = REPLICATION_STATE_STOP_REPLICATION ->
  In r (nodeTable s)
  \/ (r = set_goalState (assignmentTime s)
             REPLICATION_STATE_STOP_REPLICATION activeNode
      /\ IsCurrentState activeNode REPLICATION_STATE_PREPARE_PROMOTION = true).
Proof.
  intros Hnd Ha Hin Hr.
  destruct (assignments_decision cfg activeNode s) as (b & Hdec & Hext).
  rewrite (ext_nodes _ _ _ Hext) in Hin.
  inversion Hdec;
    match goal with
    | H : _ = assignments _ _ _ |- _ => rewrite <- H in *; clear H
    end.
  6: { (* promotion commit *)
    rewrite !apply_events_cons, apply_events_nil, !apply_event_state_change
      in Hin.
    apply In_update_goalState in Hin. destruct Hin as (r1 & Hr1 & ->).
    destruct (is_node _ _ r1); [discriminate|].
    apply In_update_goalState in Hr1. destruct Hr1 as (r0 & Hr0 & ->).
    destruct (is_node _ _ r0) eqn:Hk; [|auto].
    apply is_node_true in Hk.
    right. split; [|assumption].
    f_equal. apply (same_key_same_node (nodeTable s)); auto. }
  all: left; eapply apply_events_other_goal; [|exact Hin|exact Hr].
  all: intros e He; try (apply In_R12_assignments in He;
                         destruct He as [(o & _ & ->) | ->]; discriminate).
  all: which_assignment He; subst e; simpl; try discriminate.
  intro Hst.
  match goal with
  | H : StateIsPrimaryLike _ = true |- _ => rewrite Hst in H; discriminate
  end.
Qed.

(** Sending unhealthy secondaries to catchingup adds no primary and leaves
    alone every row that goes by another name. *)
Lemma apply_catchingup_events now U : forall l,
  (List.length (primary_like_nodes
                  (apply_events now (map catchingup_event U) l))
   <= List.length (primary_like_nodes l))%nat.
Proof.
  induction U as [|o U IH]; intro l; simpl; [lia|].
  etransitivity; [apply IH|].
  now apply update_not_primary_like.
Qed.

Lemma apply_catchingup_events_keeps now U a : forall l,
  (forall o, In o U -> node_key o <> node_key a) ->
  In a l -> In a (apply_events now (map catchingup_event U) l).
Proof.
  induction U as [|o U IH]; intros l HU Ha; simpl; [exact Ha|].
  apply IH; [intros; apply HU; simpl; auto|].
  apply update_goalState_keeps; [exact Ha|].
  destruct (is_node _ _ a) eqn:Hk; [|reflexivity].
  apply is_node_true in Hk. exfalso. apply (HU o); simpl; auto.
Qed.

(** Whenever the first node reports a replay position ahead of the second,
    the lag test succeeds, however far ahead: [Abs] is applied to an unsigned
    difference, which it leaves as it is, and the wrapped difference reads as
    a negative [int64]. *)
Lemma WalDifferenceWithin_when_ahead a b delta :
  0 < reportedLSN b -> reportedLSN b < reportedLSN a ->
  reportedLSN a < 2 ^ 63 -> 0 <= delta ->
  WalDifferenceWithin (Some a) (Some b) delta = true.
Proof.
  intros Hb Hab Ha Hd.
  unfold WalDifferenceWithin, Abs_XLogRecPtr, int64_of_uint64, uint64.
  change (2 ^ 63) with 9223372036854775808 in *.
  change (2 ^ 64) with 18446744073709551616.
  replace (reportedLSN a =? 0) with false by (symmetry; apply Z.eqb_neq; lia).
  replace (reportedLSN b =? 0) with false by (symmetry; apply Z.eqb_neq; lia).
  simpl orb. cbv iota.
  assert (Hmod : (reportedLSN b - reportedLSN a) mod 18446744073709551616
                 = reportedLSN b - reportedLSN a + 18446744073709551616).
  { rewrite <- (Z.mod_add _ 1) by lia. apply Z.mod_small. lia. }
  rewrite Hmod.
  destruct (_ >=? 0) eqn:Hge; [|lia].
  destruct (_ <? 9223372036854775808) eqn:Hlt; [lia|].
  apply Z.leb_le. lia.
Qed.

(** * The properties of the specification *)

(** C1.  The specification has it that a node whose candidatePriority is 0
    or whose replicationQuorum is false is never assigned prepare_promotion.
    The failover rule tests neither field: a healthy converged secondary with
    candidatePriority 0 and replicationQuorum false, reporting next to a
    failed primary, is assigned prepare_promotion, and the primary is
    assigned draining. *)
Theorem non_candidate_is_promoted :
  candidatePriority Scenario.non_candidate_standby = 0
  /\ replicationQuorum Scenario.non_candidate_standby = false
  /\ exists msg,
       assignments Scenario.cfg Scenario.non_candidate_standby
         (Scenario.monitor
            [Scenario.failed_primary; Scenario.non_candidate_standby])
       = [state_change_event Scenario.non_candidate_standby
            REPLICATION_STATE_PREPARE_PROMOTION msg;
          state_change_event Scenario.failed_primary
            REPLICATION_STATE_DRAINING msg].
Proof.
  split; [reflexivity|]. split; [reflexivity|].
  eexists. vm_compute. reflexivity.
Qed.

(** C2, as stated, fails: in a group of three where the former primary's
    drain time has expired, the standby that reports stop_replication is
    given wait_primary although a third node already holds wait_primary as
    its goal state.  One primary-like goal state before, two after. *)
Lemma one_primary_not_preserved :
  NoDup (map node_key (nodeTable Scenario.two_promotions))
  /\ In Scenario.stopped_standby (nodeTable Scenario.two_promotions)
  /\ at_most_one_primary
       (nodesGroup Scenario.two_promotions Scenario.stopped_standby)
  /\ ~ at_most_one_primary
         (nodesGroup
            (final_state (ProceedGroupState Scenario.cfg
                            Scenario.stopped_standby Scenario.two_promotions))
            Scenario.stopped_standby).
Proof.
  split; [|split; [|split]].
  - simpl. repeat constructor; simpl; intuition discriminate.
  - simpl. auto.
  - vm_compute. lia.
  - vm_compute. lia.
Qed.

(** C2, amended.  In a node table whose rows have distinct names
    (nodeName, nodePort) and hold the reporting node: when at most one node of
    the group has a primary-like goal state and, in case the reporting node
    has converged to prepare_promotion or to stop_replication, no node other
    than the primary node that the engine locates has one, then at most one
    node of the group has a primary-like goal state after the invocation.
    For every other reporting node the invariant is preserved as the
    specification states it. *)
Theorem one_primary_preserved cfg activeNode s :
  NoDup (map node_key (nodeTable s)) ->
  In activeNode (nodeTable s) ->
  at_most_one_primary (nodesGroup s activeNode) ->
  (IsCurrentState activeNode REPLICATION_STATE_PREPARE_PROMOTION = true
   \/ IsCurrentState activeNode REPLICATION_STATE_STOP_REPLICATION = true ->
   forall primaryNode n,
     primaryNodeInGroup s activeNode = Some primaryNode ->
     In n (nodesGroup s activeNode) ->
     StateIsPrimaryLike (goalState n) = true -> n = primaryNode) ->
  at_most_one_primary
    (nodesGroup (final_state (ProceedGroupState cfg activeNode s)) activeNode).
Proof.
  intros Hnd Ha Hone Honly.
  destruct (assignments_decision cfg activeNode s) as (b & Hdec & Hext).
  unfold nodesGroup at 1.
  rewrite (ext_nodes _ _ _ Hext), apply_events_group.
  fold (nodesGroup s activeNode).
  assert (HndG : NoDup (map node_key (nodesGroup s activeNode)))
    by now apply NoDup_keys_filter.
  assert (HaG : In activeNode (nodesGroup s activeNode))
    by (apply filter_In; auto using in_group_self).
  unfold at_most_one_primary in *.
  invert_decision Hdec.
  all: rewrite ?apply_events_cons, ?apply_events_nil,
         ?apply_event_state_change.
  - (* no rule *) exact Hone.
  - (* sole node *)
    etransitivity; [apply primary_like_nodes_bound|].
    rewrite update_goalState_length. lia.
  - (* standby joins *)
    etransitivity; [|exact Hone]. now apply update_not_primary_like.
  - (* caught up *)
    match goal with
    | HP : primaryNodeInGroup _ _ = Some ?P,
      Hc : IsCurrentState activeNode _ = true,
      HcP : _ || _ = true |- _ =>
        apply find_some in HP; destruct HP as [HPG _];
        apply IsCurrentState_eq in Hc; destruct Hc as [_ Hgoal];
        assert (HPgoal : StateIsPrimaryLike (goalState P) = true)
          by (apply orb_prop in HcP;
              destruct HcP as [HcP | HcP];
              apply IsCurrentState_eq in HcP; destruct HcP as [_ ->];
              reflexivity);
        assert (Hdiff : is_node (nodeName activeNode) (nodePort activeNode) P
                        = false)
          by (destruct (is_node _ _ P) eqn:Hk; [|reflexivity];
              apply is_node_true in Hk;
              assert (P = activeNode)
                by (apply (same_key_same_node (nodesGroup s activeNode));
                    auto);
              subst P; rewrite Hgoal in HPgoal; discriminate)
    end.
    rewrite update_primary_like;
      auto using update_goalState_keeps.
    + etransitivity; [|exact Hone]. now apply update_not_primary_like.
    + now rewrite update_goalState_keys.
  - (* primary failed *)
    etransitivity; [|exact Hone].
    etransitivity; now apply update_not_primary_like.
  - (* promotion commit *)
    etransitivity; [|exact Hone].
    etransitivity; now apply update_not_primary_like.
  - (* takes over *)
    apply (one_key_one_primary (node_key activeNode)).
    + now rewrite !update_goalState_keys.
    + intros r2 Hr2 Hp2.
      apply In_update_goalState in Hr2. destruct Hr2 as (r1 & Hr1 & ->).
      match goal with
      | |- context [is_node ?x ?y r1] => destruct (is_node x y r1) eqn:HkP
      end; [discriminate|].
      apply In_update_goalState in Hr1. destruct Hr1 as (r0 & Hr0 & ->).
      destruct (is_node (nodeName activeNode) (nodePort activeNode) r0) eqn:Hka.
      * now apply is_node_true in Hka.
      * match goal with
        | HP : primaryNodeInGroup _ _ = Some _,
          Hst : _ || _ = true |- _ =>
            rewrite (Honly (orb_prop _ _ Hst) _ r0 HP Hr0 Hp2) in HkP
        end.
        now rewrite is_node_self in HkP.
  - (* primary moves *)
    rewrite update_primary_like; auto using IsInPrimaryState_goal.
  - (* standby health *)
    unfold R12_assignments. rewrite apply_events_app.
    match goal with
    | |- context [if ?c then _ else _] => destruct c
    end; rewrite ?apply_events_cons, ?apply_events_nil.
    + unfold wait_primary_event. rewrite apply_event_state_change.
      rewrite update_primary_like.
      * etransitivity; [apply apply_catchingup_events | exact Hone].
      * now rewrite apply_events_keys.
      * apply apply_catchingup_events_keeps; [|exact HaG].
        intros o Ho Hk. apply R12_unhealthy_incl in Ho.
        assert (o = activeNode)
          by (apply (same_key_same_node (nodesGroup s activeNode)); auto;
              unfold otherNodes in Ho; apply filter_In in Ho; tauto).
        subst o. unfold otherNodes in Ho. apply filter_In in Ho.
        destruct Ho as [_ Ho]. rewrite Z.eqb_refl in Ho. discriminate.
      * match goal with
        | H : IsCurrentState activeNode _ = true |- _ =>
            apply IsCurrentState_eq in H; destruct H as [_ ->]; reflexivity
        end.
      * reflexivity.
    + etransitivity; [apply apply_catchingup_events | exact Hone].
Qed.

(** The amended C2 at a take-over in a group of three: the drain time of the
    former primary has expired, the standby that stopped replication becomes
    the one primary-like node, and a third node is a secondary. *)
Lemma one_primary_preserved_witness :
  at_most_one_primary
    (nodesGroup
       (final_state (ProceedGroupState Scenario.cfg Scenario.stopped_standby
                       Cases.handover))
       Scenario.stopped_standby).
Proof.
  apply (one_primary_preserved Scenario.cfg Scenario.stopped_standby
           Cases.handover).
  - simpl. repeat constructor; simpl; intuition discriminate.
  - simpl. auto.
  - unfold at_most_one_primary. simpl. lia.
  - intros _ primaryNode n HP Hn Hgoal.
    vm_compute in Hn. destruct Hn as [<- | [<- | [<- | []]]]; discriminate.
Defined.

(** C3.  Whenever an invocation assigns stop_replication, its assignments are
    exactly two: stop_replication to the reporting node and demote_timeout to
    the primary node located in the group, a node whose reported or goal
    state is primary-like. *)
Theorem stop_replication_comes_with_demote_timeout cfg activeNode s e :
  In e (assignments cfg activeNode s) ->
  ev_goalState e = REPLICATION_STATE_STOP_REPLICATION ->
  exists primaryNode msg,
    primaryNodeInGroup s activeNode = Some primaryNode
    /\ is_primary_candidate primaryNode = true
    /\ assignments cfg activeNode s =
         [state_change_event activeNode REPLICATION_STATE_STOP_REPLICATION msg;
          state_change_event primaryNode REPLICATION_STATE_DEMOTE_TIMEOUT msg].
Proof.
  intros Hin Hgoal.
  destruct (assignments_decision cfg activeNode s) as (b & Hdec & _).
  invert_decision Hdec; try not_in_R12 In_R12_assignments Hin;
    which_assignment Hin; subst e; simpl in Hgoal; try discriminate.
  - do 2 eexists. split; [eassumption|]. split; [|reflexivity].
    match goal with
    | H : primaryNodeInGroup _ _ = Some _ |- _ => apply find_some in H; apply H
    end.
  - not_primary_like Hgoal.
Qed.

(** C3 at scenario S3: the standby reports prepare_promotion. *)
Lemma stop_replication_comes_with_demote_timeout_witness :
  exists primaryNode msg,
    primaryNodeInGroup Scenario.promotion Scenario.promoted_standby
    = Some primaryNode
    /\ is_primary_candidate primaryNode = true
    /\ assignments Scenario.cfg Scenario.promoted_standby Scenario.promotion
       = [state_change_event Scenario.promoted_standby
            REPLICATION_STATE_STOP_REPLICATION msg;
          state_change_event primaryNode
            REPLICATION_STATE_DEMOTE_TIMEOUT msg].
Proof.
  apply (stop_replication_comes_with_demote_timeout
           Scenario.cfg Scenario.promoted_standby Scenario.promotion
           (nth 0 (assignments Scenario.cfg Scenario.promoted_standby
                     Scenario.promotion)
                  (catchingup_event Scenario.promoted_standby))).
  - vm_compute. left. reflexivity.
  - reflexivity.
Defined.

(** C4.  When the reporting node is not primary-like, its group has more
    than one node and no primary-like node is found in it, the engine raises
    the error of the missing primary node; it has made no assignment and the
    node table is as it was. *)
Theorem missing_primary_is_an_error cfg activeNode s :
  IsInPrimaryState activeNode = false ->
  (1 < List.length (nodesGroup s activeNode))%nat ->
  primaryNodeInGroup s activeNode = None ->
  ProceedGroupState cfg activeNode s = Raise (primary_not_found activeNode) s
  /\ assignments cfg activeNode s = []
  /\ nodeTable (final_state (ProceedGroupState cfg activeNode s)) = nodeTable s.
Proof.
  intros Ha Hlen HP.
  assert (Hrun : ProceedGroupState cfg activeNode s
                 = Raise (primary_not_found activeNode) s).
  { unfold ProceedGroupState, GetFormation, AutoFailoverNodeGroup,
      GetPrimaryNodeInGroup, AutoFailoverNodeGroup, ereport.
    run_monad.
    change (filter (in_group (formationId activeNode) (groupId activeNode))
              (nodeTable s))
      with (nodesGroup s activeNode).
    replace (Z.of_nat (List.length (nodesGroup s activeNode)) =? 1) with false
      by (symmetry; apply Z.eqb_neq; lia).
    simpl. rewrite Ha. simpl.
    change (find is_primary_candidate
              (filter (in_group (formationId activeNode) (groupId activeNode))
                 (nodeTable s)))
      with (primaryNodeInGroup s activeNode).
    rewrite HP. reflexivity. }
  split; [exact Hrun|].
  unfold assignments. rewrite Hrun. simpl. split; [|reflexivity].
  rewrite <- (app_nil_r (events s)) at 2. apply skipn_length_app.
Qed.

(** C4 on two standbys that have no primary. *)
Lemma missing_primary_is_an_error_witness :
  ProceedGroupState Scenario.cfg Scenario.orphan1 Scenario.orphans
  = Raise (primary_not_found Scenario.orphan1) Scenario.orphans
  /\ assignments Scenario.cfg Scenario.orphan1 Scenario.orphans = []
  /\ nodeTable (final_state (ProceedGroupState Scenario.cfg Scenario.orphan1
                               Scenario.orphans))
     = nodeTable Scenario.orphans.
Proof.
  apply (missing_primary_is_an_error Scenario.cfg Scenario.orphan1
           Scenario.orphans).
  - reflexivity.
  - simpl. lia.
  - reflexivity.
Defined.

(** C5.  The loop of rule R12, run with a count that starts at the number of
    other nodes, makes the assignments [R12_assignments]: catchingup for every
    other node that is a converged secondary and unhealthy when examined, and
    wait_primary for the primary exactly when there are other nodes and the
    count, decremented once for every unhealthy secondary and every other
    node with replicationQuorum false or candidatePriority 0, ends at zero.
    The engine runs that loop for a converged primary when no other node
    waits to join and the group is not a sole node.  In scenario S5 it
    assigns S1 catchingup and the primary wait_primary. *)
Theorem standby_health_bookkeeping :
  (forall cfg primaryNode O s,
     exists s',
       foreach_otherNode_unhealthy cfg primaryNode O
         (Z.of_nat (List.length O)) s = Ok tt s'
       /\ extends s s'
            (R12_assignments cfg primaryNode (clockReads s) O
               (Z.of_nat (List.length O))))
  /\ (forall cfg activeNode s,
        IsCurrentState activeNode REPLICATION_STATE_PRIMARY = true ->
        (forall o, In o (otherNodes s activeNode) ->
                   IsCurrentState o REPLICATION_STATE_WAIT_STANDBY = false) ->
        List.length (nodesGroup s activeNode) <> 1%nat ->
        exists s',
          ProceedGroupState cfg activeNode s = Ok true s'
          /\ extends s s'
               (R12_assignments cfg activeNode (clockReads s)
                  (otherNodes s activeNode)
                  (Z.of_nat (List.length (otherNodes s activeNode)))))
  /\ (exists s',
        ProceedGroupState Scenario.cfg Scenario.S5_primary Scenario.S5
        = Ok true s'
        /\ events s' = [catchingup_event Scenario.S5_S1;
                        wait_primary_event Scenario.S5_primary]
        /\ map goalState (nodeTable s')
           = [REPLICATION_STATE_WAIT_PRIMARY; REPLICATION_STATE_CATCHINGUP;
              REPLICATION_STATE_SECONDARY]).
Proof.
  split; [|split].
  - intros cfg primaryNode O s.
    apply foreach_otherNode_unhealthy_run. lia.
  - intros cfg activeNode s Ha Hws Hlen.
    apply ProceedGroupState_standby_health; auto.
    now apply first_wait_standby_none.
  - eexists. split; [vm_compute; reflexivity|].
    split; reflexivity.
Qed.

(** C5 at scenario S5, through the general statement. *)
Lemma standby_health_bookkeeping_witness :
  exists s',
    ProceedGroupState Scenario.cfg Scenario.S5_primary Scenario.S5 = Ok true s'
    /\ extends Scenario.S5 s'
         [catchingup_event Scenario.S5_S1;
          wait_primary_event Scenario.S5_primary].
Proof.
  apply (proj1 (proj2 standby_health_bookkeeping)
           Scenario.cfg Scenario.S5_primary Scenario.S5).
  - reflexivity.
  - intros o Ho. vm_compute in Ho.
    destruct Ho as [<- | [<- | []]]; reflexivity.
  - simpl. lia.
Defined.

(** C6.  Among the assignments of one invocation, at most one carries a
    primary-like goal state. *)
Theorem at_most_one_primary_like_assignment cfg activeNode s :
  (List.length (primary_like_assignments (assignments cfg activeNode s))
   <= 1)%nat.
Proof.
  destruct (assignments_decision cfg activeNode s) as (b & Hdec & _).
  inversion Hdec; try apply R12_assignments_primary_like;
    unfold primary_like_assignments; simpl;
    try match goal with H : StateIsPrimaryLike _ = true |- _ => rewrite H end;
    simpl; lia.
Qed.

(** C7.  The specification has it that, with both nodes present and both
    replay positions non-zero, the lag test holds exactly when their absolute
    difference is at most delta.  With the first node 99999999 bytes ahead of the second and a
    delta of 16 MB the test holds all the same; it holds whenever the first
    node is ahead. *)
Theorem WalDifferenceWithin_secondary_ahead :
  reportedLSN Scenario.ahead <> 0
  /\ reportedLSN Scenario.behind <> 0
  /\ ~ Z.abs (reportedLSN Scenario.ahead - reportedLSN Scenario.behind)
       <= DEFAULT_XLOG_SEG_SIZE
  /\ WalDifferenceWithin (Some Scenario.ahead) (Some Scenario.behind)
       DEFAULT_XLOG_SEG_SIZE = true
  /\ (forall a b delta,
        0 < reportedLSN b -> reportedLSN b < reportedLSN a ->
        reportedLSN a < 2 ^ 63 -> 0 <= delta ->
        WalDifferenceWithin (Some a) (Some b) delta = true).
Proof.
  split; [discriminate|]. split; [discriminate|].
  split; [vm_compute; intro H; now apply H|].
  split; [reflexivity|].
  exact WalDifferenceWithin_when_ahead.
Qed.

(** C8.  An invocation assigns stop_replication only to the reporting node,
    and only when it has converged to prepare_promotion; it assigns
    prepare_promotion only to the reporting node, and only when it has
    converged to secondary.  No node that has converged to catchingup is
    assigned stop_replication; in a node table whose rows have distinct
    names and hold the reporting node, no row whose goal state is catchingup
    holds stop_replication after the invocation. *)
Theorem stop_replication_only_after_prepare_promotion cfg activeNode s :
  (forall e,
     In e (assignments cfg activeNode s) ->
     ev_goalState e = REPLICATION_STATE_STOP_REPLICATION ->
     IsCurrentState activeNode REPLICATION_STATE_PREPARE_PROMOTION = true
     /\ exists msg,
          e = state_change_event activeNode
                REPLICATION_STATE_STOP_REPLICATION msg)
  /\ (forall e,
        In e (assignments cfg activeNode s) ->
        ev_goalState e = REPLICATION_STATE_PREPARE_PROMOTION ->
        IsCurrentState activeNode REPLICATION_STATE_SECONDARY = true
        /\ exists msg,
             e = state_change_event activeNode
                   REPLICATION_STATE_PREPARE_PROMOTION msg)
  /\ (forall n msg,
        IsCurrentState n REPLICATION_STATE_CATCHINGUP = true ->
        ~ In (state_change_event n REPLICATION_STATE_STOP_REPLICATION msg)
             (assignments cfg activeNode s))
  /\ (NoDup (map node_key (nodeTable s)) ->
      In activeNode (nodeTable s) ->
      forall r r',
        In r (nodeTable s) ->
        goalState r = REPLICATION_STATE_CATCHINGUP ->
        In r' (nodeTable (final_state (ProceedGroupState cfg activeNode s))) ->
        node_key r' = node_key r ->
        goalState r' <> REPLICATION_STATE_STOP_REPLICATION).
Proof.
  assert (Hstop : forall e,
     In e (assignments cfg activeNode s) ->
     ev_goalState e = REPLICATION_STATE_STOP_REPLICATION ->
     IsCurrentState activeNode REPLICATION_STATE_PREPARE_PROMOTION = true
     /\ exists msg,
          e = state_change_event activeNode
                REPLICATION_STATE_STOP_REPLICATION msg).
  { intros e Hin Hgoal.
    destruct (assignments_decision cfg activeNode s) as (b & Hdec & _).
    invert_decision Hdec; try not_in_R12 In_R12_assignments Hin;
      which_assignment Hin; subst e; simpl in Hgoal; try discriminate;
      eauto.
    not_primary_like Hgoal. }
  split; [exact Hstop|]. split; [|split].
  - intros e Hin Hgoal.
    destruct (assignments_decision cfg activeNode s) as (b & Hdec & _).
    invert_decision Hdec; try not_in_R12 In_R12_assignments Hin;
      which_assignment Hin; subst e; simpl in Hgoal; try discriminate;
      eauto.
    not_primary_like Hgoal.
  - intros n msg Hn Hin.
    destruct (Hstop _ Hin eq_refl) as (Ha & msg' & He).
    apply (f_equal ev_reportedState) in He. simpl in He.
    unfold IsCurrentState in Hn, Ha.
    rewrite He in Hn.
    destruct (reportedState activeNode); simpl in Hn, Ha; discriminate.
  - intros Hnd Ha r r' Hr Hgoal Hr' Hkey Hst.
    destruct (stop_replication_rows cfg activeNode s r' Hnd Ha Hr' Hst)
      as [Hin | [-> Hc]].
    + assert (r' = r) by (apply (same_key_same_node (nodeTable s)); auto).
      congruence.
    + assert (activeNode = r)
        by (apply (same_key_same_node (nodeTable s)); auto).
      subst r. apply IsCurrentState_eq in Hc. destruct Hc as [_ Hc].
      congruence.
Qed.

(** C8 at scenario S3: the node assigned stop_replication had converged to
    prepare_promotion. *)
Lemma stop_replication_only_after_prepare_promotion_witness :
  IsCurrentState Scenario.promoted_standby REPLICATION_STATE_PREPARE_PROMOTION
  = true
  /\ exists msg,
       nth 0 (assignments Scenario.cfg Scenario.promoted_standby
                Scenario.promotion)
             (catchingup_event Scenario.promoted_standby)
       = state_change_event Scenario.promoted_standby
           REPLICATION_STATE_STOP_REPLICATION msg.
Proof.
  apply (proj1 (stop_replication_only_after_prepare_promotion
                  Scenario.cfg Scenario.promoted_standby Scenario.promotion)).
  - vm_compute. left. reflexivity.
  - reflexivity.
Defined.

(** C9.  When one of the two node arguments of the lag test is absent, or
    both are, the test holds, whatever the other node and the bound. *)
Theorem WalDifferenceWithin_one_node_missing (n : AutoFailoverNode) (delta : Z) :
  WalDifferenceWithin (Some n) None delta = true
  /\ WalDifferenceWithin None (Some n) delta = true
  /\ WalDifferenceWithin None None delta = true.
Proof. repeat split. Qed.

(** C10.  When the reporting node has converged to primary and no other node
    of the group has converged to wait_standby, the engine returns true.
    When moreover the group is not a sole node and every other node is
    healthy, in the replication quorum and of non-zero candidate priority,
    it returns true without any assignment: the node table is as it was. *)
Theorem converged_primary_always_proceeds cfg activeNode s :
  IsCurrentState activeNode REPLICATION_STATE_PRIMARY = true ->
  (forall o, In o (otherNodes s activeNode) ->
             IsCurrentState o REPLICATION_STATE_WAIT_STANDBY = false) ->
  (exists s', ProceedGroupState cfg activeNode s = Ok true s')
  /\ (List.length (nodesGroup s activeNode) <> 1%nat ->
      (forall o, In o (otherNodes s activeNode) ->
         IsHealthy (Some o) = true
         /\ replicationQuorum o = true /\ candidatePriority o <> 0) ->
      assignments cfg activeNode s = []
      /\ nodeTable (final_state (ProceedGroupState cfg activeNode s))
         = nodeTable s).
Proof.
  intros Ha Hws. apply first_wait_standby_none in Hws.
  split.
  - destruct (Nat.eq_dec (List.length (nodesGroup s activeNode)) 1) as [Hl|Hl].
    + unfold ProceedGroupState, GetFormation, AutoFailoverNodeGroup.
      run_monad.
      change (filter (in_group (formationId activeNode) (groupId activeNode))
                (nodeTable s))
        with (nodesGroup s activeNode).
      rewrite Hl.
      rewrite (IsCurrentState_unique _ _ REPLICATION_STATE_SINGLE Ha)
        by discriminate.
      simpl. eauto.
    + destruct (ProceedGroupState_standby_health cfg activeNode s Ha Hws Hl)
        as (s' & Hrun & _). eauto.
  - intros Hl Hall.
    destruct (ProceedGroupState_standby_health cfg activeNode s Ha Hws Hl)
      as (s' & Hrun & Hext).
    unfold assignments. rewrite Hrun. simpl.
    rewrite (ext_events _ _ _ Hext), (ext_nodes _ _ _ Hext), skipn_length_app.
    unfold R12_assignments.
    destruct (R12_all_candidates cfg
                (otherNodes s activeNode) (clockReads s) Hall) as [-> ->].
    rewrite Z.sub_0_r.
    destruct (otherNodes s activeNode) as [|o O]; simpl; [auto|].
    replace (Z.of_nat (S (List.length O)) =? 0) with false
      by (symmetry; apply Z.eqb_neq; lia).
    auto.
Qed.

(** C10 on a primary whose one standby is a healthy quorum candidate: the
    engine returns true and assigns nothing. *)
Lemma converged_primary_always_proceeds_witness :
  (exists s',
     ProceedGroupState Scenario.cfg Scenario.S5_primary Scenario.all_healthy
     = Ok true s')
  /\ assignments Scenario.cfg Scenario.S5_primary Scenario.all_healthy = []
  /\ nodeTable (final_state (ProceedGroupState Scenario.cfg Scenario.S5_primary
                               Scenario.all_healthy))
     = nodeTable Scenario.all_healthy.
Proof.
  destruct (converged_primary_always_proceeds
              Scenario.cfg Scenario.S5_primary Scenario.all_healthy)
    as [Hret Hnone].
  - reflexivity.
  - intros o Ho. vm_compute in Ho. destruct Ho as [<- | []]. reflexivity.
  - split; [exact Hret|]. apply Hnone.
    + simpl. lia.
    + intros o Ho. vm_compute in Ho. destruct Ho as [<- | []].
      repeat split. discriminate.
Defined.

(** * Further properties of the engine *)

(** ** The predicates *)

Lemma IsUnhealthy_run cfg p s :
  IsUnhealthy cfg p s
  = Ok (unhealthy_at cfg (clock cfg (clockReads s)) p) (clock_read s).
Proof. reflexivity. Qed.

(** X1.  IsHealthy and IsUnhealthy never both accept a node: for a node that
    IsHealthy accepts (its health check is good and its PostgreSQL is
    running), IsUnhealthy returns false, whatever the clock and the timeouts
    are. *)
Theorem healthy_is_never_unhealthy cfg n s :
  IsHealthy (Some n) = true ->
  returned (IsUnhealthy cfg (Some n) s) = Some false.
Proof.
  intro H. rewrite IsUnhealthy_run. simpl.
  now rewrite (IsHealthy_not_unhealthy cfg _ n H).
Qed.

(** X1 at a healthy standby. *)
Lemma healthy_is_never_unhealthy_witness :
  returned (IsUnhealthy Scenario.cfg (Some Scenario.healthy_standby)
              Scenario.S5) = Some false.
Proof.
  apply (healthy_is_never_unhealthy Scenario.cfg Scenario.healthy_standby
           Scenario.S5).
  reflexivity.
Defined.

Lemma geb_false a b : a < b -> (a >=? b) = false.
Proof. intro H. rewrite Z.geb_leb. apply Z.leb_gt. exact H. Qed.

Lemma geb_true a b : b <= a -> (a >=? b) = true.
Proof. intro H. rewrite Z.geb_leb. apply Z.leb_le. exact H. Qed.

(** A difference of timestamps that fits in 64 bits is not changed by the
    wrap-around, and a wrapped difference is a signed 64-bit value. *)
Lemma int64_in_range z : - 2 ^ 63 <= z < 2 ^ 63 -> int64 z = z.
Proof.
  unfold int64, int64_of_uint64, uint64.
  change (2 ^ 63) with 9223372036854775808.
  change (2 ^ 64) with 18446744073709551616.
  intros [Hlo Hhi].
  destruct (Z_lt_le_dec z 0) as [Hneg | Hpos].
  - assert (Hmod : z mod 18446744073709551616 = z + 18446744073709551616)
      by (symmetry; apply (Z.mod_unique_pos _ _ (-1)); lia).
    rewrite Hmod.
    replace (z + 18446744073709551616 <? 9223372036854775808) with false
      by (symmetry; apply Z.ltb_ge; lia).
    lia.
  - rewrite Z.mod_small by lia.
    replace (z <? 9223372036854775808) with true
      by (symmetry; apply Z.ltb_lt; lia).
    reflexivity.
Qed.

Lemma int64_bounds z : - 2 ^ 63 <= int64 z < 2 ^ 63.
Proof.
  unfold int64, int64_of_uint64, uint64.
  change (2 ^ 63) with 9223372036854775808.
  change (2 ^ 64) with 18446744073709551616.
  pose proof (Z.mod_pos_bound z 18446744073709551616 ltac:(lia)) as Hm.
  destruct (z mod 18446744073709551616 <? 9223372036854775808) eqn:Hlt.
  - apply Z.ltb_lt in Hlt. lia.
  - apply Z.ltb_ge in Hlt. lia.
Qed.

(** A difference that is not below the 64-bit range and is less than the
    bound does not exceed it, whether it wraps around or not. *)
Lemma TimestampDifferenceExceeds_below start_time stop_time msec :
  - 2 ^ 63 <= stop_time - start_time < msec * 1000 ->
  TimestampDifferenceExceeds start_time stop_time msec = false.
Proof.
  intros [Hlo Hhi]. unfold TimestampDifferenceExceeds. apply geb_false.
  destruct (Z_lt_le_dec (stop_time - start_time) (2 ^ 63)) as [Hin | Hout].
  - rewrite int64_in_range; lia.
  - pose proof (int64_bounds (stop_time - start_time)). lia.
Qed.

(** X2.  A node whose PostgreSQL is running is not unhealthy as long as one of
    the four conditions of the timeout test of IsUnhealthy fails: the monitor
    is still within its startup grace period, or the node has reported within
    the unhealthy timeout, or its health check is not bad, or its last health
    check is older than the start of the monitor.  The times are signed
    64-bit values whose differences the code lets wrap around: a difference
    counts as small here when it is also not below -2^63. *)
Theorem running_node_within_timeouts_is_not_unhealthy cfg n s :
  pgIsRunning n = true ->
  - 2 ^ 63 <= clock cfg (clockReads s) - PgStartTime cfg
    < StartupGracePeriodMs cfg * 1000
  \/ - 2 ^ 63 <= clock cfg (clockReads s) - reportTime n
     < UnhealthyTimeoutMs cfg * 1000
  \/ health n <> NODE_HEALTH_BAD
  \/ - 2 ^ 63 <= healthCheckTime n - PgStartTime cfg < 0 ->
  returned (IsUnhealthy cfg (Some n) s) = Some false.
Proof.
  intros Hrun H. rewrite IsUnhealthy_run. simpl. f_equal.
  unfold unhealthy_at. rewrite Hrun.
  assert (Hcases :
    TimestampDifferenceExceeds (PgStartTime cfg) (clock cfg (clockReads s))
      (StartupGracePeriodMs cfg) = false
    \/ TimestampDifferenceExceeds (reportTime n) (clock cfg (clockReads s))
         (UnhealthyTimeoutMs cfg) = false
    \/ NodeHealthState_eqb (health n) NODE_HEALTH_BAD = false
    \/ TimestampDifferenceExceeds (PgStartTime cfg) (healthCheckTime n) 0
       = false).
  { destruct H as [H | [H | [H | H]]].
    - left. now apply TimestampDifferenceExceeds_below.
    - right. left. now apply TimestampDifferenceExceeds_below.
    - right. right. left. destruct (health n) eqn:E; try reflexivity; congruence.
    - right. right. right. apply TimestampDifferenceExceeds_below. lia. }
  destruct Hcases as [Hf | [Hf | [Hf | Hf]]]; rewrite Hf;
    repeat match goal with
           | |- context [TimestampDifferenceExceeds ?x ?y ?z] =>
               destruct (TimestampDifferenceExceeds x y z)
           end;
    destruct (NodeHealthState_eqb (health n) NODE_HEALTH_BAD); reflexivity.
Qed.

(** X2 five seconds after the start of the monitor: a node with a bad health
    check and an old report is within the startup grace period. *)
Lemma running_node_within_timeouts_is_not_unhealthy_witness :
  returned (IsUnhealthy Cases.just_started (Some Cases.silent)
              (Scenario.monitor [Cases.silent])) = Some false.
Proof.
  apply (running_node_within_timeouts_is_not_unhealthy
           Cases.just_started Cases.silent (Scenario.monitor [Cases.silent])).
  - reflexivity.
  - left. simpl. lia.
Defined.

(** X3.  IsDrainTimeExpired answers true only for a node whose goal state is
    demote_timeout and for which the time since the last state change, a
    signed 64-bit difference that wraps around, is at least DrainTimeoutMs.
    Once it answers true for a node, it answers true at every later reading
    of the clock for which that time still fits in 64 bits: the difference
    was not below -2^63 at the first reading and is less than 2^63 at the
    later one. *)
Theorem drain_time_expiry_is_for_demote_timeout_and_lasts cfg n s :
  returned (IsDrainTimeExpired cfg (Some n) s) = Some true ->
  goalState n = REPLICATION_STATE_DEMOTE_TIMEOUT
  /\ int64 (clock cfg (clockReads s) - stateChangeTime n)
     >= DrainTimeoutMs cfg * 1000
  /\ forall s2,
       clock cfg (clockReads s) <= clock cfg (clockReads s2) ->
       - 2 ^ 63 <= clock cfg (clockReads s) - stateChangeTime n ->
       clock cfg (clockReads s2) - stateChangeTime n < 2 ^ 63 ->
       returned (IsDrainTimeExpired cfg (Some n) s2) = Some true.
Proof.
  unfold IsDrainTimeExpired, TimestampDifferenceExceeds.
  destruct (ReplicationState_eqb (goalState n) REPLICATION_STATE_DEMOTE_TIMEOUT)
    eqn:Hgoal; simpl; [|discriminate].
  run_monad.
  destruct (_ >=? _) eqn:Hexp; [|discriminate].
  intros _.
  rewrite Z.geb_leb in Hexp. apply Z.leb_le in Hexp.
  split; [destruct (goalState n); simpl in Hgoal; congruence|].
  split; [lia|].
  intros s2 Hlater Hlo Hhi.
  rewrite int64_in_range in Hexp by lia.
  rewrite int64_in_range by lia.
  rewrite geb_true by lia. reflexivity.
Qed.

(** X3 at a former primary that was given demote_timeout 100 s ago: its
    drain time has expired, and it still has at the next reading of the
    clock. *)
Lemma drain_time_expiry_is_for_demote_timeout_and_lasts_witness :
  goalState Scenario.former_primary = REPLICATION_STATE_DEMOTE_TIMEOUT
  /\ int64 (clock Scenario.cfg (clockReads Scenario.two_promotions)
            - stateChangeTime Scenario.former_primary)
     >= DrainTimeoutMs Scenario.cfg * 1000
  /\ returned (IsDrainTimeExpired Scenario.cfg (Some Scenario.former_primary)
                 (clock_read Scenario.two_promotions)) = Some true.
Proof.
  destruct (drain_time_expiry_is_for_demote_timeout_and_lasts
              Scenario.cfg Scenario.former_primary Scenario.two_promotions
              eq_refl) as (Hgoal & Hold & Hlasts).
  split; [exact Hgoal|]. split; [exact Hold|].
  apply Hlasts; simpl; lia.
Defined.

(** X4.  When the secondary node has reported an LSN other than 0 and the
    other node's LSN is at least the secondary's and less than 2^63 bytes
    ahead of it, WalDifferenceWithin is the comparison of their distance with
    delta: it answers true exactly when the other node's LSN minus the
    secondary's is at most delta. *)
Theorem WalDifferenceWithin_when_behind secondaryNode otherNode delta :
  0 < reportedLSN secondaryNode ->
  reportedLSN secondaryNode <= reportedLSN otherNode ->
  reportedLSN otherNode - reportedLSN secondaryNode < 2 ^ 63 ->
  WalDifferenceWithin (Some secondaryNode) (Some otherNode) delta
  = (reportedLSN otherNode - reportedLSN secondaryNode <=? delta).
Proof.
  intros Hs Hle Hd.
  unfold WalDifferenceWithin, Abs_XLogRecPtr, int64_of_uint64, uint64.
  change (2 ^ 63) with 9223372036854775808 in *.
  change (2 ^ 64) with 18446744073709551616.
  replace (reportedLSN secondaryNode =? 0) with false
    by (symmetry; apply Z.eqb_neq; lia).
  replace (reportedLSN otherNode =? 0) with false
    by (symmetry; apply Z.eqb_neq; lia).
  simpl orb. cbv iota.
  rewrite Z.mod_small by lia.
  rewrite geb_true by lia.
  replace (_ <? 9223372036854775808) with true
    by (symmetry; apply Z.ltb_lt; lia).
  reflexivity.
Qed.

(** X4 at a secondary that is behind the other node. *)
Lemma WalDifferenceWithin_when_behind_witness :
  WalDifferenceWithin (Some Scenario.behind) (Some Scenario.ahead)
    DEFAULT_XLOG_SEG_SIZE
  = (reportedLSN Scenario.ahead - reportedLSN Scenario.behind
     <=? DEFAULT_XLOG_SEG_SIZE).
Proof.
  apply (WalDifferenceWithin_when_behind Scenario.behind Scenario.ahead
           DEFAULT_XLOG_SEG_SIZE).
  - simpl. lia.
  - simpl. lia.
  - simpl. lia.
Defined.

(** X5.  WalDifferenceWithin is monotone in its threshold: two nodes that are
    within delta of each other are within every larger delta, for every pair
    of arguments, a missing node included. *)
Theorem WalDifferenceWithin_grows_with_delta p q delta delta' :
  delta <= delta' ->
  WalDifferenceWithin p q delta = true ->
  WalDifferenceWithin p q delta' = true.
Proof.
  intro Hle. unfold WalDifferenceWithin.
  destruct p as [a|], q as [b|]; auto.
  destruct (_ || _); [discriminate|].
  rewrite !Z.leb_le. lia.
Qed.

(** X5 at a threshold that is doubled. *)
Lemma WalDifferenceWithin_grows_with_delta_witness :
  WalDifferenceWithin (Some Scenario.behind) (Some Scenario.ahead)
    (2 * 99999999) = true.
Proof.
  apply (WalDifferenceWithin_grows_with_delta
           (Some Scenario.behind) (Some Scenario.ahead) 99999999).
  - lia.
  - reflexivity.
Defined.

(** ** The engine, rule by rule *)

Lemma run_assignments cfg a s b s' new :
  ProceedGroupState cfg a s = Ok b s' ->
  events s' = events s ++ new ->
  returned (ProceedGroupState cfg a s) = Some b
  /\ assignments cfg a s = new.
Proof.
  intros Hrun Hev. unfold assignments. rewrite Hrun. simpl.
  rewrite Hev. now rewrite skipn_length_app.
Qed.

Lemma IsCurrentState_not_primary n st :
  IsCurrentState n st = true -> StateIsPrimaryLike st = false ->
  IsInPrimaryState n = false.
Proof.
  intros H Hst. apply IsCurrentState_eq in H. destruct H as [Hr Hg].
  unfold IsInPrimaryState. rewrite Hg, Hst. apply andb_false_r.
Qed.

(** A reporting node that is not primary-like, in a group that is not a sole
    node and has a primary node, goes through the rules that follow the
    lookup of the primary node. *)
Lemma ProceedGroupState_standby cfg a s P :
  List.length (nodesGroup s a) <> 1%nat ->
  IsInPrimaryState a = false ->
  primaryNodeInGroup s a = Some P ->
  ProceedGroupState cfg a s
  = ProceedGroupState_with_primary cfg (formationOf s a) a P s.
Proof.
  intros Hlen Ha HP.
  unfold ProceedGroupState, GetFormation, AutoFailoverNodeGroup,
    GetPrimaryNodeInGroup, AutoFailoverNodeGroup, ereport.
  run_monad.
  change (filter (in_group (formationId a) (groupId a)) (nodeTable s))
    with (nodesGroup s a).
  replace (Z.of_nat (List.length (nodesGroup s a)) =? 1) with false
    by (symmetry; apply Z.eqb_neq; lia).
  simpl. rewrite Ha. simpl.
  change (find is_primary_candidate
            (filter (in_group (formationId a) (groupId a)) (nodeTable s)))
    with (primaryNodeInGroup s a).
  rewrite HP. reflexivity.
Qed.

(** Rewrites every test of the state of a node that has converged to [st]. *)
Ltac settle_states H :=
  rewrite ?H;
  repeat match goal with
         | |- context [IsCurrentState ?n ?st'] =>
             match type of H with
             | IsCurrentState n ?st = true =>
                 rewrite (IsCurrentState_unique n st st' H) by discriminate
             end
         end.

Ltac by_cases_on_conditions :=
  repeat match goal with
         | |- context [if ?c then _ else _] => destruct c eqn:?; simpl
         end;
  try congruence;
  eexists; (split; [reflexivity|]); extends_by_computation.

Lemma with_primary_run_secondary cfg formation a P s :
  IsCurrentState a REPLICATION_STATE_SECONDARY = true ->
  let failover :=
    IsInPrimaryState P
    && unhealthy_at cfg (clock cfg (S (clockReads s))) (Some P)
    && IsHealthy (Some a)
    && WalDifferenceWithin (Some a) (Some P) (PromoteXlogThreshold cfg) in
  exists s',
    ProceedGroupState_with_primary cfg formation a P s = Ok failover s'
    /\ extends s s'
         (if failover
          then [state_change_event a REPLICATION_STATE_PREPARE_PROMOTION
                  (failover_message a P);
                state_change_event P REPLICATION_STATE_DRAINING
                  (failover_message a P)]
          else []).
Proof.
  intros Ha failover. subst failover.
  unfold ProceedGroupState_with_primary. run_monad.
  settle_states Ha. simpl.
  by_cases_on_conditions.
Qed.

(** X6.  A converged secondary reports in a group of more than one node in
    which the engine locates primaryNode. The engine starts a failover exactly
    when the primary node has converged to a primary-like state, is unhealthy
    at the engine's second reading of the clock (the first one is the health
    test whose answer the engine drops), and the reporting node is healthy and
    within PromoteXlogThreshold of the primary's LSN. It then returns true and
    assigns prepare_promotion to the reporting node and draining to the
    primary node, in this order and under one message; otherwise it returns
    false and assigns nothing. *)
Theorem failover_starts_exactly_when cfg activeNode primaryNode s :
  IsCurrentState activeNode REPLICATION_STATE_SECONDARY = true ->
  List.length (nodesGroup s activeNode) <> 1%nat ->
  primaryNodeInGroup s activeNode = Some primaryNode ->
  let failover :=
    IsInPrimaryState primaryNode
    && unhealthy_at cfg (clock cfg (S (clockReads s))) (Some primaryNode)
    && IsHealthy (Some activeNode)
    && WalDifferenceWithin (Some activeNode) (Some primaryNode)
         (PromoteXlogThreshold cfg) in
  returned (ProceedGroupState cfg activeNode s) = Some failover
  /\ assignments cfg activeNode s =
       (if failover
        then [state_change_event activeNode REPLICATION_STATE_PREPARE_PROMOTION
                (failover_message activeNode primaryNode);
              state_change_event primaryNode REPLICATION_STATE_DRAINING
                (failover_message activeNode primaryNode)]
        else []).
Proof.
  intros Ha Hlen HP failover.
  destruct (with_primary_run_secondary cfg (formationOf s activeNode)
              activeNode primaryNode s Ha) as (s' & Hrun & Hext).
  apply (run_assignments cfg activeNode s _ s').
  - rewrite (ProceedGroupState_standby cfg activeNode s primaryNode Hlen
               (IsCurrentState_not_primary _ _ Ha eq_refl) HP).
    exact Hrun.
  - apply (ext_events _ _ _ Hext).
Qed.

(** X6 at scenario S2: the primary has failed and the standby is a candidate. *)
Lemma failover_starts_exactly_when_witness :
  returned (ProceedGroupState Scenario.cfg Scenario.candidate_standby
              (Scenario.monitor
                 [Scenario.failed_primary; Scenario.candidate_standby]))
  = Some true
  /\ assignments Scenario.cfg Scenario.candidate_standby
       (Scenario.monitor [Scenario.failed_primary; Scenario.candidate_standby])
     = [state_change_event Scenario.candidate_standby
          REPLICATION_STATE_PREPARE_PROMOTION
          (failover_message Scenario.candidate_standby Scenario.failed_primary);
        state_change_event Scenario.failed_primary REPLICATION_STATE_DRAINING
          (failover_message Scenario.candidate_standby Scenario.failed_primary)].
Proof.
  apply (failover_starts_exactly_when Scenario.cfg Scenario.candidate_standby
           Scenario.failed_primary
           (Scenario.monitor
              [Scenario.failed_primary; Scenario.candidate_standby])).
  - reflexivity.
  - simpl. lia.
  - reflexivity.
Defined.

Lemma with_primary_run_wait_standby cfg formation a P s :
  IsCurrentState a REPLICATION_STATE_WAIT_STANDBY = true ->
  let welcomed :=
    IsCurrentState P REPLICATION_STATE_WAIT_PRIMARY
    || IsCurrentState P REPLICATION_STATE_JOIN_PRIMARY in
  exists s',
    ProceedGroupState_with_primary cfg formation a P s = Ok welcomed s'
    /\ extends s s'
         (if welcomed
          then [state_change_event a REPLICATION_STATE_CATCHINGUP
                  (welcome_message a P)]
          else []).
Proof.
  intros Ha welcomed. subst welcomed.
  unfold ProceedGroupState_with_primary. run_monad.
  settle_states Ha. simpl.
  by_cases_on_conditions.
Qed.

Lemma with_primary_run_demoted cfg formation a P s :
  IsCurrentState a REPLICATION_STATE_DEMOTED = true ->
  let rejoins := IsCurrentState P REPLICATION_STATE_WAIT_PRIMARY in
  exists s',
    ProceedGroupState_with_primary cfg formation a P s = Ok rejoins s'
    /\ extends s s'
         (if rejoins
          then [state_change_event a REPLICATION_STATE_CATCHINGUP
                  (rejoin_message a P)]
          else []).
Proof.
  intros Ha rejoins. subst rejoins.
  unfold ProceedGroupState_with_primary. run_monad.
  settle_states Ha. simpl.
  by_cases_on_conditions.
Qed.

Lemma with_primary_run_catchingup cfg formation a P s :
  IsCurrentState a REPLICATION_STATE_CATCHINGUP = true ->
  let caught :=
    (IsCurrentState P REPLICATION_STATE_WAIT_PRIMARY
     || IsCurrentState P REPLICATION_STATE_JOIN_PRIMARY)
    && IsHealthy (Some a)
    && WalDifferenceWithin (Some a) (Some P) (EnableSyncXlogThreshold cfg) in
  exists s',
    ProceedGroupState_with_primary cfg formation a P s = Ok caught s'
    /\ extends s s'
         (if caught
          then [state_change_event a REPLICATION_STATE_SECONDARY
                  (caught_up_message a P);
                state_change_event P REPLICATION_STATE_PRIMARY
                  (caught_up_message a P)]
          else []).
Proof.
  intros Ha caught. subst caught.
  unfold ProceedGroupState_with_primary. run_monad.
  settle_states Ha. simpl.
  by_cases_on_conditions.
Qed.

Lemma with_primary_run_prepare_promotion cfg formation a P s :
  IsCurrentState a REPLICATION_STATE_PREPARE_PROMOTION = true ->
  exists s',
    ProceedGroupState_with_primary cfg formation a P s = Ok true s'
    /\ extends s s'
         (if IsCitusFormation formation && (groupId a >? 0)
          then take_over a P (coordinator_message a P)
          else [state_change_event a REPLICATION_STATE_STOP_REPLICATION
                  (stop_replication_message a P);
                state_change_event P REPLICATION_STATE_DEMOTE_TIMEOUT
                  (stop_replication_message a P)]).
Proof.
  intros Ha.
  unfold ProceedGroupState_with_primary, take_over. run_monad.
  settle_states Ha. simpl.
  by_cases_on_conditions.
Qed.

Lemma with_primary_run_stop_replication cfg formation a P s :
  IsCurrentState a REPLICATION_STATE_STOP_REPLICATION = true ->
  let drained :=
    IsCurrentState P REPLICATION_STATE_DEMOTE_TIMEOUT
    || drain_expired_at cfg (clock cfg (S (clockReads s))) P in
  let sharded := IsCitusFormation formation && (groupId a >? 0) in
  exists s',
    ProceedGroupState_with_primary cfg formation a P s
    = Ok (drained || sharded) s'
    /\ extends s s'
         (if drained then take_over a P (drained_message a P)
          else if sharded then take_over a P (coordinator_message a P)
          else []).
Proof.
  intros Ha drained sharded. subst drained sharded.
  unfold ProceedGroupState_with_primary, take_over, drain_expired_at.
  run_monad.
  settle_states Ha. simpl.
  destruct (ReplicationState_eqb (goalState P) REPLICATION_STATE_DEMOTE_TIMEOUT);
    simpl;
    by_cases_on_conditions.
Qed.

Lemma standby_rule cfg a s P st b new :
  IsCurrentState a st = true -> StateIsPrimaryLike st = false ->
  List.length (nodesGroup s a) <> 1%nat ->
  primaryNodeInGroup s a = Some P ->
  (exists s',
     ProceedGroupState_with_primary cfg (formationOf s a) a P s = Ok b s'
     /\ extends s s' new) ->
  returned (ProceedGroupState cfg a s) = Some b
  /\ assignments cfg a s = new.
Proof.
  intros Ha Hst Hlen HP (s' & Hrun & Hext).
  apply (run_assignments cfg a s b s').
  - rewrite (ProceedGroupState_standby cfg a s P Hlen
               (IsCurrentState_not_primary _ _ Ha Hst) HP).
    exact Hrun.
  - apply (ext_events _ _ _ Hext).
Qed.

(** X7.  A node converged to wait_standby reports in a group of more than one
    node in which the engine locates primaryNode. The engine returns true and
    assigns catchingup to the reporting node, and nothing else, exactly when
    the primary node has converged to wait_primary or to join_primary;
    otherwise it returns false and assigns nothing. *)
Theorem standby_starts_catching_up_exactly_when cfg activeNode primaryNode s :
  IsCurrentState activeNode REPLICATION_STATE_WAIT_STANDBY = true ->
  List.length (nodesGroup s activeNode) <> 1%nat ->
  primaryNodeInGroup s activeNode = Some primaryNode ->
  let welcomed :=
    IsCurrentState primaryNode REPLICATION_STATE_WAIT_PRIMARY
    || IsCurrentState primaryNode REPLICATION_STATE_JOIN_PRIMARY in
  returned (ProceedGroupState cfg activeNode s) = Some welcomed
  /\ assignments cfg activeNode s =
       (if welcomed
        then [state_change_event activeNode REPLICATION_STATE_CATCHINGUP
                (welcome_message activeNode primaryNode)]
        else []).
Proof.
  intros Ha Hlen HP.
  apply (standby_rule cfg activeNode s primaryNode _ _ _ Ha eq_refl Hlen HP).
  now apply with_primary_run_wait_standby.
Qed.

(** X7 at a new standby next to a waiting primary. *)
Lemma standby_starts_catching_up_exactly_when_witness :
  returned (ProceedGroupState Scenario.cfg Scenario.joining_standby
              (Scenario.monitor
                 [Scenario.waiting_primary; Scenario.joining_standby]))
  = Some true
  /\ assignments Scenario.cfg Scenario.joining_standby
       (Scenario.monitor [Scenario.waiting_primary; Scenario.joining_standby])
     = [state_change_event Scenario.joining_standby
          REPLICATION_STATE_CATCHINGUP
          (welcome_message Scenario.joining_standby Scenario.waiting_primary)].
Proof.
  apply (standby_starts_catching_up_exactly_when
           Scenario.cfg Scenario.joining_standby Scenario.waiting_primary
           (Scenario.monitor
              [Scenario.waiting_primary; Scenario.joining_standby])
           eq_refl ltac:(simpl; lia) eq_refl).
Defined.

(** X8.  A node converged to demoted reports in a group of more than one node
    in which the engine locates primaryNode. The engine returns true and
    assigns catchingup to the reporting node, and nothing else, exactly when
    the primary node has converged to wait_primary (join_primary does not
    count here); otherwise it returns false and assigns nothing. *)
Theorem demoted_node_rejoins_exactly_when cfg activeNode primaryNode s :
  IsCurrentState activeNode REPLICATION_STATE_DEMOTED = true ->
  List.length (nodesGroup s activeNode) <> 1%nat ->
  primaryNodeInGroup s activeNode = Some primaryNode ->
  let rejoins := IsCurrentState primaryNode REPLICATION_STATE_WAIT_PRIMARY in
  returned (ProceedGroupState cfg activeNode s) = Some rejoins
  /\ assignments cfg activeNode s =
       (if rejoins
        then [state_change_event activeNode REPLICATION_STATE_CATCHINGUP
                (rejoin_message activeNode primaryNode)]
        else []).
Proof.
  intros Ha Hlen HP.
  apply (standby_rule cfg activeNode s primaryNode _ _ _ Ha eq_refl Hlen HP).
  now apply with_primary_run_demoted.
Qed.

(** X8 at a demoted former primary next to the new primary. *)
Lemma demoted_node_rejoins_exactly_when_witness :
  returned (ProceedGroupState Scenario.cfg Scenario.demoted_primary
              (Scenario.monitor
                 [Scenario.demoted_primary; Scenario.new_primary]))
  = Some true
  /\ assignments Scenario.cfg Scenario.demoted_primary
       (Scenario.monitor [Scenario.demoted_primary; Scenario.new_primary])
     = [state_change_event Scenario.demoted_primary
          REPLICATION_STATE_CATCHINGUP
          (rejoin_message Scenario.demoted_primary Scenario.new_primary)].
Proof.
  apply (demoted_node_rejoins_exactly_when
           Scenario.cfg Scenario.demoted_primary Scenario.new_primary
           (Scenario.monitor
              [Scenario.demoted_primary; Scenario.new_primary])
           eq_refl ltac:(simpl; lia) eq_refl).
Defined.

(** X9.  A node converged to catchingup reports in a group of more than one
    node in which the engine locates primaryNode. The engine returns true and
    assigns secondary to the reporting node and then primary to the primary
    node exactly when the primary node has converged to wait_primary or
    join_primary, the reporting node is healthy, and it is within
    EnableSyncXlogThreshold of the primary's LSN; otherwise it returns false
    and assigns nothing. *)
Theorem standby_has_caught_up_exactly_when cfg activeNode primaryNode s :
  IsCurrentState activeNode REPLICATION_STATE_CATCHINGUP = true ->
  List.length (nodesGroup s activeNode) <> 1%nat ->
  primaryNodeInGroup s activeNode = Some primaryNode ->
  let caught :=
    (IsCurrentState primaryNode REPLICATION_STATE_WAIT_PRIMARY
     || IsCurrentState primaryNode REPLICATION_STATE_JOIN_PRIMARY)
    && IsHealthy (Some activeNode)
    && WalDifferenceWithin (Some activeNode) (Some primaryNode)
         (EnableSyncXlogThreshold cfg) in
  returned (ProceedGroupState cfg activeNode s) = Some caught
  /\ assignments cfg activeNode s =
       (if caught
        then [state_change_event activeNode REPLICATION_STATE_SECONDARY
                (caught_up_message activeNode primaryNode);
              state_change_event primaryNode REPLICATION_STATE_PRIMARY
                (caught_up_message activeNode primaryNode)]
        else []).
Proof.
  intros Ha Hlen HP caught.
  apply (standby_rule cfg activeNode s primaryNode _ _ _ Ha eq_refl Hlen HP).
  now apply with_primary_run_catchingup.
Qed.

(** X9 at a standby that has caught up with a waiting primary. *)
Lemma standby_has_caught_up_exactly_when_witness :
  returned (ProceedGroupState Scenario.cfg Scenario.caught_up_standby
              Scenario.catching_up) = Some true
  /\ assignments Scenario.cfg Scenario.caught_up_standby Scenario.catching_up
     = [state_change_event Scenario.caught_up_standby
          REPLICATION_STATE_SECONDARY
          (caught_up_message Scenario.caught_up_standby
             Scenario.waiting_primary);
        state_change_event Scenario.waiting_primary REPLICATION_STATE_PRIMARY
          (caught_up_message Scenario.caught_up_standby
             Scenario.waiting_primary)].
Proof.
  apply (standby_has_caught_up_exactly_when Scenario.cfg
           Scenario.caught_up_standby Scenario.waiting_primary
           Scenario.catching_up).
  - reflexivity.
  - simpl. lia.
  - reflexivity.
Defined.

(** X10.  A node converged to prepare_promotion reports in a group of more
    than one node in which the engine locates primaryNode. The engine always
    returns true, whatever the health and the LSNs of the two nodes are. In a
    Citus formation and a group other than group 0 it assigns wait_primary to
    the reporting node and demoted to the primary node; in every other case it
    assigns stop_replication to the reporting node and demote_timeout to the
    primary node. *)
Theorem promotion_once_prepared_always_proceeds cfg activeNode primaryNode s :
  IsCurrentState activeNode REPLICATION_STATE_PREPARE_PROMOTION = true ->
  List.length (nodesGroup s activeNode) <> 1%nat ->
  primaryNodeInGroup s activeNode = Some primaryNode ->
  returned (ProceedGroupState cfg activeNode s) = Some true
  /\ assignments cfg activeNode s =
       (if IsCitusFormation (formationOf s activeNode)
           && (groupId activeNode >? 0)
        then take_over activeNode primaryNode
               (coordinator_message activeNode primaryNode)
        else [state_change_event activeNode REPLICATION_STATE_STOP_REPLICATION
                (stop_replication_message activeNode primaryNode);
              state_change_event primaryNode REPLICATION_STATE_DEMOTE_TIMEOUT
                (stop_replication_message activeNode primaryNode)]).
Proof.
  intros Ha Hlen HP.
  apply (standby_rule cfg activeNode s primaryNode _ _ _ Ha eq_refl Hlen HP).
  now apply with_primary_run_prepare_promotion.
Qed.

(** X10 at scenario S3, in a formation that is not a Citus formation. *)
Lemma promotion_once_prepared_always_proceeds_witness :
  returned (ProceedGroupState Scenario.cfg Scenario.promoted_standby
              Scenario.promotion) = Some true
  /\ assignments Scenario.cfg Scenario.promoted_standby Scenario.promotion
     = [state_change_event Scenario.promoted_standby
          REPLICATION_STATE_STOP_REPLICATION
          (stop_replication_message Scenario.promoted_standby
             Scenario.draining_primary);
        state_change_event Scenario.draining_primary
          REPLICATION_STATE_DEMOTE_TIMEOUT
          (stop_replication_message Scenario.promoted_standby
             Scenario.draining_primary)].
Proof.
  apply (promotion_once_prepared_always_proceeds Scenario.cfg
           Scenario.promoted_standby Scenario.draining_primary
           Scenario.promotion).
  - reflexivity.
  - simpl. lia.
  - reflexivity.
Defined.

(** X11.  A node converged to stop_replication reports in a group of more than
    one node in which the engine locates primaryNode. It is given
    wait_primary, and the primary node demoted, exactly when the primary node
    has converged to demote_timeout, or its drain time has expired at the
    engine's second reading of the clock, or the formation is a Citus
    formation and the group is not group 0; the message tells which of the two
    rules fired, the drain rule first. Otherwise the engine returns false and
    assigns nothing. *)
Theorem standby_takes_over_exactly_when cfg activeNode primaryNode s :
  IsCurrentState activeNode REPLICATION_STATE_STOP_REPLICATION = true ->
  List.length (nodesGroup s activeNode) <> 1%nat ->
  primaryNodeInGroup s activeNode = Some primaryNode ->
  let drained :=
    IsCurrentState primaryNode REPLICATION_STATE_DEMOTE_TIMEOUT
    || drain_expired_at cfg (clock cfg (S (clockReads s))) primaryNode in
  let sharded :=
    IsCitusFormation (formationOf s activeNode)
    && (groupId activeNode >? 0) in
  returned (ProceedGroupState cfg activeNode s) = Some (drained || sharded)
  /\ assignments cfg activeNode s =
       (if drained
        then take_over activeNode primaryNode
               (drained_message activeNode primaryNode)
        else if sharded
        then take_over activeNode primaryNode
               (coordinator_message activeNode primaryNode)
        else []).
Proof.
  intros Ha Hlen HP drained sharded.
  apply (standby_rule cfg activeNode s primaryNode _ _ _ Ha eq_refl Hlen HP).
  now apply with_primary_run_stop_replication.
Qed.

(** X11 at a standby that has stopped replication, the drain time of the
    former primary expired. *)
Lemma standby_takes_over_exactly_when_witness :
  returned (ProceedGroupState Scenario.cfg Scenario.stopped_standby
              (Scenario.monitor
                 [Scenario.former_primary; Scenario.stopped_standby]))
  = Some true
  /\ assignments Scenario.cfg Scenario.stopped_standby
       (Scenario.monitor [Scenario.former_primary; Scenario.stopped_standby])
     = take_over Scenario.stopped_standby Scenario.former_primary
         (drained_message Scenario.stopped_standby Scenario.former_primary).
Proof.
  apply (standby_takes_over_exactly_when Scenario.cfg
           Scenario.stopped_standby Scenario.former_primary
           (Scenario.monitor
              [Scenario.former_primary; Scenario.stopped_standby])).
  - reflexivity.
  - simpl. lia.
  - reflexivity.
Defined.

Lemma awaits_no_rule_state n st :
  awaits_no_rule n -> IsCurrentState n st = true ->
  st = REPLICATION_STATE_DRAINING \/ st = REPLICATION_STATE_DEMOTE_TIMEOUT.
Proof.
  intros H Hc. apply IsCurrentState_eq in Hc. destruct Hc as [Hr Hg].
  destruct H as [H | [H | H]]; [congruence | left | right]; congruence.
Qed.

Lemma awaits_no_rule_not st n :
  awaits_no_rule n ->
  st <> REPLICATION_STATE_DRAINING -> st <> REPLICATION_STATE_DEMOTE_TIMEOUT ->
  IsCurrentState n st = false.
Proof.
  intros H H1 H2. destruct (IsCurrentState n st) eqn:Hc; [|reflexivity].
  destruct (awaits_no_rule_state n st H Hc); congruence.
Qed.

Lemma with_primary_run_no_rule cfg formation a P s :
  awaits_no_rule a ->
  ProceedGroupState_with_primary cfg formation a P s = Ok false (clock_read s).
Proof.
  intro H.
  unfold ProceedGroupState_with_primary. run_monad.
  rewrite !(awaits_no_rule_not _ a H) by discriminate.
  reflexivity.
Qed.

(** X12.  A node that has not yet reached its goal state (its reported state
    differs from its goal state), or that has converged to draining or to
    demote_timeout, is moved by no rule when it reports in a group of more
    than one node: the engine does not return true, assigns nothing, and
    leaves the node table as it was. *)
Theorem node_in_transit_is_left_alone cfg activeNode s :
  awaits_no_rule activeNode ->
  List.length (nodesGroup s activeNode) <> 1%nat ->
  returned (ProceedGroupState cfg activeNode s) <> Some true
  /\ assignments cfg activeNode s = []
  /\ nodeTable (final_state (ProceedGroupState cfg activeNode s)) = nodeTable s.
Proof.
  intros H Hlen.
  assert (Ha : IsInPrimaryState activeNode = false).
  { unfold IsInPrimaryState.
    destruct H as [H | [H | H]].
    - destruct (reportedState activeNode), (goalState activeNode);
        simpl; congruence.
    - rewrite H. apply andb_false_r.
    - rewrite H. apply andb_false_r. }
  destruct (primaryNodeInGroup s activeNode) as [P|] eqn:HP.
  - assert (Hrun := ProceedGroupState_standby cfg activeNode s P Hlen Ha HP).
    rewrite with_primary_run_no_rule in Hrun by exact H.
    unfold assignments. rewrite Hrun. simpl.
    split; [discriminate|]. split; [|reflexivity].
    rewrite <- (app_nil_r (events s)) at 2. apply skipn_length_app.
  - destruct (ProceedGroupState_decision cfg activeNode s)
      as [(b & s' & new & Hrun & Hext & Hdec) | (Hrun & _)].
    + exfalso. clear Hext. revert Hrun.
      unfold ProceedGroupState, GetFormation, AutoFailoverNodeGroup,
        GetPrimaryNodeInGroup, AutoFailoverNodeGroup, ereport.
      run_monad.
      change (filter (in_group (formationId activeNode) (groupId activeNode))
                (nodeTable s))
        with (nodesGroup s activeNode).
      replace (Z.of_nat (List.length (nodesGroup s activeNode)) =? 1)
        with false by (symmetry; apply Z.eqb_neq; lia).
      simpl. rewrite Ha. simpl.
      change (find is_primary_candidate
                (filter (in_group (formationId activeNode)
                           (groupId activeNode)) (nodeTable s)))
        with (primaryNodeInGroup s activeNode).
      rewrite HP. discriminate.
    + unfold assignments. rewrite Hrun. simpl.
      split; [discriminate|]. split; [|reflexivity].
      rewrite <- (app_nil_r (events s)) at 2. apply skipn_length_app.
Qed.

(** X12 at a standby that still reports secondary after it was given
    prepare_promotion. *)
Lemma node_in_transit_is_left_alone_witness :
  returned (ProceedGroupState Scenario.cfg Cases.in_transit
              (Scenario.monitor [Scenario.failed_primary; Cases.in_transit]))
  <> Some true
  /\ assignments Scenario.cfg Cases.in_transit
       (Scenario.monitor [Scenario.failed_primary; Cases.in_transit]) = []
  /\ nodeTable (final_state
                  (ProceedGroupState Scenario.cfg Cases.in_transit
                     (Scenario.monitor
                        [Scenario.failed_primary; Cases.in_transit])))
     = nodeTable (Scenario.monitor [Scenario.failed_primary; Cases.in_transit]).
Proof.
  apply (node_in_transit_is_left_alone Scenario.cfg Cases.in_transit
           (Scenario.monitor [Scenario.failed_primary; Cases.in_transit])).
  - left. discriminate.
  - simpl. lia.
Defined.

(** ** The engine for a reporting primary *)

Lemma ProceedGroupState_primary cfg a s :
  IsInPrimaryState a = true ->
  List.length (nodesGroup s a) <> 1%nat
  \/ IsCurrentState a REPLICATION_STATE_SINGLE = true ->
  ProceedGroupState cfg a s = ProceedGroupStateForPrimaryNode cfg a s.
Proof.
  intros Ha Hlen.
  unfold ProceedGroupState, GetFormation, AutoFailoverNodeGroup.
  run_monad.
  change (filter (in_group (formationId a) (groupId a)) (nodeTable s))
    with (nodesGroup s a).
  replace ((Z.of_nat (List.length (nodesGroup s a)) =? 1)
           && negb (IsCurrentState a REPLICATION_STATE_SINGLE)) with false.
  - now rewrite Ha.
  - symmetry. destruct Hlen as [Hlen | ->].
    + replace (Z.of_nat (List.length (nodesGroup s a)) =? 1) with false
        by (symmetry; apply Z.eqb_neq; lia).
      reflexivity.
    + apply andb_false_r.
Qed.

Lemma primary_run_join cfg a s o :
  first_wait_standby (otherNodes s a) = Some o ->
  (IsCurrentState a REPLICATION_STATE_SINGLE = true ->
   exists s',
     ProceedGroupStateForPrimaryNode cfg a s = Ok true s'
     /\ extends s s' [state_change_event a REPLICATION_STATE_WAIT_PRIMARY
                        (first_standby_message a o)])
  /\ (IsCurrentState a REPLICATION_STATE_PRIMARY = true ->
      exists s',
        ProceedGroupStateForPrimaryNode cfg a s = Ok true s'
        /\ extends s s' [state_change_event a REPLICATION_STATE_JOIN_PRIMARY
                           (another_standby_message a o)]).
Proof.
  intros Ho; split; intros Ha;
    unfold ProceedGroupStateForPrimaryNode, AutoFailoverOtherNodesList,
      AutoFailoverNodeGroup;
    run_monad;
    change (filter (fun o => negb (nodeId o =? nodeId a))
              (filter (in_group (formationId a) (groupId a)) (nodeTable s)))
      with (otherNodes s a);
    settle_states Ha; rewrite Ho; simpl;
    eexists; (split; [reflexivity|]); extends_by_computation.
Qed.

(** X13.  When another node of the group has converged to wait_standby, a
    reporting node converged to single is assigned wait_primary, and a
    reporting node converged to primary (in a group of more than one node) is
    assigned join_primary; the engine returns true and assigns nothing else,
    and the message names the first such node of the group. For a primary this
    rule comes before the standby-health rule: no standby is sent to
    catchingup in that invocation. *)
Theorem joining_standby_comes_first cfg activeNode s o :
  first_wait_standby (otherNodes s activeNode) = Some o ->
  IsCurrentState activeNode REPLICATION_STATE_SINGLE = true
  \/ IsCurrentState activeNode REPLICATION_STATE_PRIMARY = true
     /\ List.length (nodesGroup s activeNode) <> 1%nat ->
  returned (ProceedGroupState cfg activeNode s) = Some true
  /\ assignments cfg activeNode s
     = [if IsCurrentState activeNode REPLICATION_STATE_SINGLE
        then state_change_event activeNode REPLICATION_STATE_WAIT_PRIMARY
               (first_standby_message activeNode o)
        else state_change_event activeNode REPLICATION_STATE_JOIN_PRIMARY
               (another_standby_message activeNode o)].
Proof.
  intros Ho H. destruct (primary_run_join cfg activeNode s o Ho) as [H1 H2].
  destruct H as [Ha | [Ha Hlen]].
  - rewrite Ha. destruct (H1 Ha) as (s' & Hrun & Hext).
    apply (run_assignments cfg activeNode s true s').
    + rewrite ProceedGroupState_primary; auto.
      apply (IsCurrentState_IsInPrimaryState _ _ Ha eq_refl).
    + apply (ext_events _ _ _ Hext).
  - replace (IsCurrentState activeNode REPLICATION_STATE_SINGLE) with false
      by (symmetry; apply (IsCurrentState_unique _ _ _ Ha); discriminate).
    destruct (H2 Ha) as (s' & Hrun & Hext).
    apply (run_assignments cfg activeNode s true s').
    + rewrite ProceedGroupState_primary; auto.
      apply (IsCurrentState_IsInPrimaryState _ _ Ha eq_refl).
    + apply (ext_events _ _ _ Hext).
Qed.

(** X13 at a primary with an unhealthy secondary and a new node that waits to
    join. *)
Lemma joining_standby_comes_first_witness :
  returned (ProceedGroupState Scenario.cfg Scenario.S5_primary Cases.joining)
  = Some true
  /\ assignments Scenario.cfg Scenario.S5_primary Cases.joining
     = [state_change_event Scenario.S5_primary REPLICATION_STATE_JOIN_PRIMARY
          (another_standby_message Scenario.S5_primary Cases.newcomer)].
Proof.
  apply (joining_standby_comes_first Scenario.cfg Scenario.S5_primary
           Cases.joining Cases.newcomer eq_refl).
  right. split; [reflexivity | simpl; lia].
Defined.

Lemma primary_run_idle cfg a s :
  IsCurrentState a REPLICATION_STATE_WAIT_PRIMARY = true
  \/ IsCurrentState a REPLICATION_STATE_JOIN_PRIMARY = true
  \/ (IsCurrentState a REPLICATION_STATE_SINGLE = true
      /\ first_wait_standby (otherNodes s a) = None) ->
  ProceedGroupStateForPrimaryNode cfg a s = Ok false s.
Proof.
  intros H.
  unfold ProceedGroupStateForPrimaryNode, AutoFailoverOtherNodesList,
    AutoFailoverNodeGroup.
  run_monad.
  change (filter (fun o => negb (nodeId o =? nodeId a))
            (filter (in_group (formationId a) (groupId a)) (nodeTable s)))
    with (otherNodes s a).
  destruct H as [Ha | [Ha | [Ha Ho]]]; settle_states Ha; rewrite ?Ho;
    reflexivity.
Qed.

(** X14.  A node converged to wait_primary or to join_primary, reporting in a
    group of more than one node, and a node converged to single next to which
    no node has converged to wait_standby, are left where they are: the engine
    returns false and leaves the whole monitor state as it was, the clock
    unread and the log channel included. *)
Theorem waiting_primary_is_not_moved_by_its_own_report cfg activeNode s :
  (IsCurrentState activeNode REPLICATION_STATE_WAIT_PRIMARY = true
   \/ IsCurrentState activeNode REPLICATION_STATE_JOIN_PRIMARY = true)
  /\ List.length (nodesGroup s activeNode) <> 1%nat
  \/ IsCurrentState activeNode REPLICATION_STATE_SINGLE = true
     /\ (forall o, In o (otherNodes s activeNode) ->
           IsCurrentState o REPLICATION_STATE_WAIT_STANDBY = false) ->
  ProceedGroupState cfg activeNode s = Ok false s
  /\ assignments cfg activeNode s = [].
Proof.
  intros H.
  assert (Hrun : ProceedGroupState cfg activeNode s = Ok false s).
  { destruct H as [[[Ha | Ha] Hlen] | [Ha Ho]].
    - rewrite ProceedGroupState_primary; auto.
      + apply primary_run_idle; auto.
      + apply (IsCurrentState_IsInPrimaryState _ _ Ha eq_refl).
    - rewrite ProceedGroupState_primary; auto.
      + apply primary_run_idle; auto.
      + apply (IsCurrentState_IsInPrimaryState _ _ Ha eq_refl).
    - rewrite ProceedGroupState_primary; auto.
      + apply primary_run_idle. right. right.
        auto using first_wait_standby_none.
      + apply (IsCurrentState_IsInPrimaryState _ _ Ha eq_refl). }
  split; [exact Hrun|].
  unfold assignments. rewrite Hrun. simpl.
  rewrite <- (app_nil_r (events s)) at 2. apply skipn_length_app.
Qed.

(** X14 at a waiting primary whose standby is catching up. *)
Lemma waiting_primary_is_not_moved_by_its_own_report_witness :
  ProceedGroupState Scenario.cfg Scenario.waiting_primary Scenario.catching_up
  = Ok false Scenario.catching_up
  /\ assignments Scenario.cfg Scenario.waiting_primary Scenario.catching_up
     = [].
Proof.
  apply (waiting_primary_is_not_moved_by_its_own_report Scenario.cfg
           Scenario.waiting_primary Scenario.catching_up).
  left. split; [left; reflexivity | simpl; lia].
Defined.

(** X15.  A node converged to apply_settings, reporting in a group of more
    than one node, is assigned primary and nothing else, and the engine
    returns true, whatever the states and the health of the other nodes. *)
Theorem settings_applied_returns_to_primary cfg activeNode s :
  IsCurrentState activeNode REPLICATION_STATE_APPLY_SETTINGS = true ->
  List.length (nodesGroup s activeNode) <> 1%nat ->
  returned (ProceedGroupState cfg activeNode s) = Some true
  /\ assignments cfg activeNode s
     = [state_change_event activeNode REPLICATION_STATE_PRIMARY
          (settings_message activeNode)].
Proof.
  intros Ha Hlen.
  assert (Hrun : exists s',
             ProceedGroupStateForPrimaryNode cfg activeNode s = Ok true s'
             /\ extends s s'
                  [state_change_event activeNode REPLICATION_STATE_PRIMARY
                     (settings_message activeNode)]).
  { unfold ProceedGroupStateForPrimaryNode, AutoFailoverOtherNodesList,
      AutoFailoverNodeGroup.
    run_monad. settle_states Ha. simpl.
    eexists. split; [reflexivity|]. extends_by_computation. }
  destruct Hrun as (s' & Hrun & Hext).
  apply (run_assignments cfg activeNode s true s').
  - rewrite ProceedGroupState_primary; auto.
    apply (IsCurrentState_IsInPrimaryState _ _ Ha eq_refl).
  - apply (ext_events _ _ _ Hext).
Qed.

(** X15 at a primary that has applied its settings while a new node waits to
    join. *)
Lemma settings_applied_returns_to_primary_witness :
  returned (ProceedGroupState Scenario.cfg Scenario.settings_applied
              (Scenario.monitor
                 [Scenario.settings_applied; Cases.newcomer]))
  = Some true
  /\ assignments Scenario.cfg Scenario.settings_applied
       (Scenario.monitor [Scenario.settings_applied; Cases.newcomer])
     = [state_change_event Scenario.settings_applied REPLICATION_STATE_PRIMARY
          (settings_message Scenario.settings_applied)].
Proof.
  apply (settings_applied_returns_to_primary Scenario.cfg
           Scenario.settings_applied
           (Scenario.monitor [Scenario.settings_applied; Cases.newcomer])).
  - reflexivity.
  - simpl. lia.
Defined.

(** ** Standby health *)

Lemma R12_unhealthy_why cfg O : forall t o,
  In o (R12_unhealthy cfg t O) ->
  In o O
  /\ IsCurrentState o REPLICATION_STATE_SECONDARY = true
  /\ IsHealthy (Some o) = false.
Proof.
  induction O as [|o' rest IH]; intros t o; simpl; [tauto|].
  rewrite in_app_iff. intros [H|H].
  - unfold unhealthy_secondary in H.
    destruct (IsCurrentState o' REPLICATION_STATE_SECONDARY) eqn:Hsec;
      simpl in H; [|tauto].
    destruct (unhealthy_at cfg (clock cfg t) (Some o')) eqn:Hu;
      simpl in H; [|tauto].
    destruct H as [<- | []]. repeat split; auto.
    destruct (IsHealthy (Some o')) eqn:Hh; [|reflexivity].
    rewrite (IsHealthy_not_unhealthy cfg _ o' Hh) in Hu. discriminate.
  - destruct (IH _ _ H) as (Hin & Hs & Hh). auto.
Qed.

(** An other node that keeps the count up keeps it above zero. *)
Lemma R12_decrements_candidate cfg O : forall t o,
  In o O ->
  IsHealthy (Some o) = true -> not_a_candidate o = false ->
  R12_decrements cfg t O < Z.of_nat (List.length O).
Proof.
  induction O as [|o' rest IH]; intros t o Hin Hh Hc; [destruct Hin|].
  simpl R12_decrements.
  change (List.length (o' :: rest)) with (S (List.length rest)).
  pose proof (R12_decrements_bounds cfg rest (next_read t o')) as Hb.
  destruct Hin as [-> | Hin].
  - unfold unhealthy_secondary.
    rewrite (IsHealthy_not_unhealthy cfg _ o Hh), andb_false_r, Hc.
    simpl. lia.
  - specialize (IH (next_read t o') o Hin Hh Hc).
    destruct (_ || _); lia.
Qed.

(** X16.  When the reporting node has converged to a primary-like state, every
    assignment of catchingup of the invocation is made to another node of the
    group that has converged to secondary and that IsHealthy rejects, under
    the message of the standby-health rule. *)
Theorem only_unhealthy_secondaries_go_to_catchingup cfg activeNode s e :
  IsInPrimaryState activeNode = true ->
  In e (assignments cfg activeNode s) ->
  ev_goalState e = REPLICATION_STATE_CATCHINGUP ->
  exists o,
    In o (otherNodes s activeNode)
    /\ e = catchingup_event o
    /\ IsCurrentState o REPLICATION_STATE_SECONDARY = true
    /\ IsHealthy (Some o) = false.
Proof.
  intros Ha Hin Hgoal.
  destruct (assignments_decision cfg activeNode s) as (b & Hdec & _).
  invert_decision Hdec; try congruence.
  - destruct Hin.
  - which_assignment Hin; subst e; discriminate.
  - which_assignment Hin; subst e; simpl in Hgoal. not_primary_like Hgoal.
  - unfold R12_assignments in Hin. apply in_app_iff in Hin.
    destruct Hin as [Hin | Hin].
    + apply in_map_iff in Hin. destruct Hin as (o & <- & Ho).
      exists o. apply R12_unhealthy_why in Ho. tauto.
    + destruct (_ && _); simpl in Hin; [|tauto].
      destruct Hin as [<- | []]. discriminate.
Qed.

(** X16 at scenario S5. *)
Lemma only_unhealthy_secondaries_go_to_catchingup_witness :
  exists o,
    In o (otherNodes Scenario.S5 Scenario.S5_primary)
    /\ nth 0 (assignments Scenario.cfg Scenario.S5_primary Scenario.S5)
             (wait_primary_event Scenario.S5_primary)
       = catchingup_event o
    /\ IsCurrentState o REPLICATION_STATE_SECONDARY = true
    /\ IsHealthy (Some o) = false.
Proof.
  apply (only_unhealthy_secondaries_go_to_catchingup Scenario.cfg
           Scenario.S5_primary Scenario.S5).
  - reflexivity.
  - vm_compute. left. reflexivity.
  - reflexivity.
Defined.

(** The sole-node rule comes before every other rule. *)
Lemma sole_node_run cfg a s :
  List.length (nodesGroup s a) = 1%nat ->
  IsCurrentState a REPLICATION_STATE_SINGLE = false ->
  exists s',
    ProceedGroupState cfg a s = Ok true s'
    /\ extends s s' [state_change_event a REPLICATION_STATE_SINGLE
                       (single_message a)].
Proof.
  intros Hlen Ha.
  unfold ProceedGroupState, GetFormation, AutoFailoverNodeGroup.
  run_monad.
  change (filter (in_group (formationId a) (groupId a)) (nodeTable s))
    with (nodesGroup s a).
  rewrite Hlen, Ha. simpl.
  eexists. split; [reflexivity|]. extends_by_computation.
Qed.

(** X17.  A reporting node converged to primary is never assigned wait_primary
    by an invocation in which another node of its group is healthy, takes part
    in the replication quorum and has a candidate priority other than 0. *)
Theorem synchronous_replication_is_kept_while_a_candidate_is_healthy
  cfg activeNode s o :
  In o (otherNodes s activeNode) ->
  IsHealthy (Some o) = true ->
  replicationQuorum o = true ->
  candidatePriority o <> 0 ->
  IsCurrentState activeNode REPLICATION_STATE_PRIMARY = true ->
  forall e,
    In e (assignments cfg activeNode s) ->
    ev_goalState e <> REPLICATION_STATE_WAIT_PRIMARY.
Proof.
  intros Ho Hh Hq Hp Ha e Hin Hgoal.
  assert (Hc : not_a_candidate o = false).
  { unfold not_a_candidate. rewrite Hq. apply Z.eqb_neq in Hp.
    now rewrite Hp. }
  pose proof (IsCurrentState_IsInPrimaryState _ _ Ha eq_refl) as Hprim.
  destruct (Nat.eq_dec (List.length (nodesGroup s activeNode)) 1) as [Hl|Hl].
  { destruct (sole_node_run cfg activeNode s Hl) as (s' & Hrun & Hext).
    - apply (IsCurrentState_unique _ _ _ Ha). discriminate.
    - destruct (run_assignments _ _ _ _ _ _ Hrun (ext_events _ _ _ Hext))
        as [_ Heq].
      rewrite Heq in Hin. which_assignment Hin; subst e. discriminate. }
  destruct (first_wait_standby (otherNodes s activeNode)) as [o'|] eqn:Hws.
  { destruct (primary_run_join cfg activeNode s o' Hws) as [_ H2].
    destruct (H2 Ha) as (s' & Hrun & Hext).
    rewrite <- ProceedGroupState_primary in Hrun by auto.
    destruct (run_assignments _ _ _ _ _ _ Hrun (ext_events _ _ _ Hext))
      as [_ Heq].
    rewrite Heq in Hin. which_assignment Hin; subst e. discriminate. }
  destruct (ProceedGroupState_standby_health cfg activeNode s Ha Hws Hl)
    as (s' & Hrun & Hext).
  destruct (run_assignments _ _ _ _ _ _ Hrun (ext_events _ _ _ Hext))
    as [_ Heq].
  rewrite Heq in Hin.
  unfold R12_assignments in Hin. apply in_app_iff in Hin.
  destruct Hin as [Hin | Hin].
  - apply in_map_iff in Hin. destruct Hin as (o' & <- & _). discriminate.
  - pose proof (R12_decrements_candidate cfg (otherNodes s activeNode)
                  (clockReads s) o Ho Hh Hc) as Hlt.
    replace (_ - _ =? 0) with false in Hin
      by (symmetry; apply Z.eqb_neq; lia).
    rewrite andb_false_r in Hin. destruct Hin.
Qed.

(** X17 at a primary with one unhealthy secondary and one healthy candidate. *)
Lemma synchronous_replication_is_kept_while_a_candidate_is_healthy_witness :
  Forall (fun e => ev_goalState e <> REPLICATION_STATE_WAIT_PRIMARY)
    (assignments Scenario.cfg Scenario.S5_primary Cases.one_candidate_left).
Proof.
  apply Forall_forall.
  apply (synchronous_replication_is_kept_while_a_candidate_is_healthy
           Scenario.cfg Scenario.S5_primary Cases.one_candidate_left
           Cases.healthy_candidate).
  - simpl. auto.
  - reflexivity.
  - reflexivity.
  - discriminate.
  - reflexivity.
Defined.

(** ** The sole node *)

(** X18.  When the reporting node is the only node of its group, the engine
    returns true and assigns it single, and nothing else, exactly when the
    node has not converged to single already; a node that has is left alone,
    and the engine returns false. *)
Theorem sole_node_becomes_single_and_stays cfg activeNode s :
  List.length (nodesGroup s activeNode) = 1%nat ->
  In activeNode (nodeTable s) ->
  returned (ProceedGroupState cfg activeNode s)
  = Some (negb (IsCurrentState activeNode REPLICATION_STATE_SINGLE))
  /\ assignments cfg activeNode s
     = (if IsCurrentState activeNode REPLICATION_STATE_SINGLE
        then []
        else [state_change_event activeNode REPLICATION_STATE_SINGLE
                (single_message activeNode)]).
Proof.
  intros Hlen Hin.
  destruct (IsCurrentState activeNode REPLICATION_STATE_SINGLE) eqn:Ha.
  - assert (Hothers : otherNodes s activeNode = []).
    { assert (HaG : In activeNode (nodesGroup s activeNode))
        by (apply filter_In; auto using in_group_self).
      unfold otherNodes.
      destruct (nodesGroup s activeNode) as [|n [|m l]]; try discriminate.
      destruct HaG as [-> | []]. simpl.
      now rewrite Z.eqb_refl. }
    assert (Hrun : ProceedGroupState cfg activeNode s = Ok false s).
    { rewrite ProceedGroupState_primary; auto.
      - apply primary_run_idle. right. right. split; [exact Ha|].
        now rewrite Hothers.
      - apply (IsCurrentState_IsInPrimaryState _ _ Ha eq_refl). }
    split; [now rewrite Hrun|].
    unfold assignments. rewrite Hrun. simpl.
    rewrite <- (app_nil_r (events s)) at 2. apply skipn_length_app.
  - destruct (sole_node_run cfg activeNode s Hlen Ha) as (s' & Hrun & Hext).
    apply (run_assignments _ _ _ _ _ _ Hrun (ext_events _ _ _ Hext)).
Qed.

(** X18 at a secondary whose primary was removed. *)
Lemma sole_node_becomes_single_and_stays_witness :
  returned (ProceedGroupState Scenario.cfg Scenario.candidate_standby
              Cases.left_alone) = Some true
  /\ assignments Scenario.cfg Scenario.candidate_standby Cases.left_alone
     = [state_change_event Scenario.candidate_standby REPLICATION_STATE_SINGLE
          (single_message Scenario.candidate_standby)].
Proof.
  apply (sole_node_becomes_single_and_stays Scenario.cfg
           Scenario.candidate_standby Cases.left_alone eq_refl).
  simpl. auto.
Defined.

(** ** What no invocation does *)

(** X19.  An invocation that returns false has published no event and has left
    the node table and the formation table as they were. *)
Theorem returning_false_changes_nothing cfg activeNode s s' :
  ProceedGroupState cfg activeNode s = Ok false s' ->
  events s' = events s
  /\ nodeTable s' = nodeTable s
  /\ formationTable s' = formationTable s.
Proof.
  intro Hrun.
  destruct (ProceedGroupState_decision cfg activeNode s)
    as [(b & s2 & new & Hrun2 & Hext & Hdec) | (Hrun2 & _)];
    rewrite Hrun2 in Hrun; [|discriminate].
  injection Hrun as -> ->.
  inversion Hdec; subst.
  destruct Hext as [E N F]. simpl in E, N.
  rewrite app_nil_r in E. auto.
Qed.

(** X19 at a secondary next to a healthy primary. *)
Lemma returning_false_changes_nothing_witness :
  let s := Scenario.monitor [Scenario.S5_primary; Scenario.candidate_standby] in
  let s' := final_state
              (ProceedGroupState Scenario.cfg Scenario.candidate_standby s) in
  events s' = events s
  /\ nodeTable s' = nodeTable s
  /\ formationTable s' = formationTable s.
Proof.
  apply (returning_false_changes_nothing Scenario.cfg
           Scenario.candidate_standby
           (Scenario.monitor [Scenario.S5_primary; Scenario.candidate_standby])).
  reflexivity.
Defined.

(** X20.  The engine raises one error only: whenever an invocation ends in an
    error, the reporting node has not converged to a primary-like state, no
    node of its group has a primary-like reported or goal state, the error is
    the one that names the formation, the group and the reporting node, and
    the monitor state is as it was before the invocation. *)
Theorem the_only_error_is_the_missing_primary cfg activeNode s e s' :
  ProceedGroupState cfg activeNode s = Raise e s' ->
  e = primary_not_found activeNode
  /\ s' = s
  /\ IsInPrimaryState activeNode = false
  /\ primaryNodeInGroup s activeNode = None.
Proof.
  intro Hrun.
  destruct (ProceedGroupState_decision cfg activeNode s)
    as [(b & s2 & new & Hrun2 & _) | (Hrun2 & Ha & HP)];
    rewrite Hrun2 in Hrun; [discriminate|].
  injection Hrun as <- <-. auto.
Qed.

(** X20 at a group of two standbys and no primary. *)
Lemma the_only_error_is_the_missing_primary_witness :
  primary_not_found Scenario.orphan1 = primary_not_found Scenario.orphan1
  /\ Scenario.orphans = Scenario.orphans
  /\ IsInPrimaryState Scenario.orphan1 = false
  /\ primaryNodeInGroup Scenario.orphans Scenario.orphan1 = None.
Proof.
  apply (the_only_error_is_the_missing_primary Scenario.cfg Scenario.orphan1
           Scenario.orphans (primary_not_found Scenario.orphan1)
           Scenario.orphans).
  reflexivity.
Defined.

(** Every assignment names the reporting node or a node of its group. *)
Lemma assignments_target cfg a s e :
  In e (assignments cfg a s) ->
  exists n msg,
    e = state_change_event n (ev_goalState e) msg
    /\ (n = a \/ In n (nodesGroup s a)).
Proof.
  intro Hin.
  destruct (assignments_decision cfg a s) as (b & Hdec & _).
  invert_decision Hdec.
  9: { apply In_R12_assignments in Hin.
       destruct Hin as [(o & Ho & ->) | ->].
       - exists o. eexists. split; [reflexivity|]. right.
         unfold otherNodes in Ho. apply filter_In in Ho. tauto.
       - exists a. eexists. split; [reflexivity|]. auto. }
  all: which_assignment Hin; subst e;
    try (exists a; eexists; split; [reflexivity | auto]).
  all: match goal with
       | HP : primaryNodeInGroup _ _ = Some ?P |- _ =>
           exists P; eexists; split; [reflexivity|]; right;
           apply find_some in HP; tauto
       end.
Qed.

(** X22.  Every assignment of an invocation is made to a node of the formation
    and the group of the reporting node. *)
Theorem assignments_stay_in_the_group cfg activeNode s e :
  In e (assignments cfg activeNode s) ->
  ev_formationId e = formationId activeNode
  /\ ev_groupId e = groupId activeNode.
Proof.
  intro Hin.
  destruct (assignments_target cfg activeNode s e Hin)
    as (n & msg & -> & [-> | Hn]); simpl; [auto|].
  unfold nodesGroup in Hn. apply filter_In in Hn. destruct Hn as [_ Hn].
  unfold in_group in Hn. apply andb_prop in Hn. destruct Hn as [Hf Hg].
  apply String.eqb_eq in Hf. apply Z.eqb_eq in Hg. auto.
Qed.

(** X22 at the second assignment of a failover, in a table that also holds a
    node of group 1. *)
Lemma assignments_stay_in_the_group_witness :
  ev_formationId
    (nth 1 (assignments Scenario.cfg Scenario.candidate_standby
              Cases.two_groups)
         (catchingup_event Cases.elsewhere))
  = formationId Scenario.candidate_standby
  /\ ev_groupId
       (nth 1 (assignments Scenario.cfg Scenario.candidate_standby
                 Cases.two_groups)
            (catchingup_event Cases.elsewhere))
     = groupId Scenario.candidate_standby.
Proof.
  apply (assignments_stay_in_the_group Scenario.cfg Scenario.candidate_standby
           Cases.two_groups).
  vm_compute. right. left. reflexivity.
Defined.

Lemma update_goalState_filter now f name port st l :
  (forall n, f (set_goalState now st n) = f n) ->
  filter f (update_goalState now name port st l)
  = update_goalState now name port st (filter f l).
Proof.
  intro Hf. induction l as [|n l IH]; [reflexivity|].
  unfold update_goalState in *. simpl.
  replace (f (if is_node name port n then set_goalState now st n else n))
    with (f n) by (destruct (is_node name port n); auto).
  destruct (f n); simpl; now rewrite IH.
Qed.

Lemma apply_events_filter now f new : forall l,
  (forall st n, f (set_goalState now st n) = f n) ->
  filter f (apply_events now new l) = apply_events now new (filter f l).
Proof.
  induction new as [|e new IH]; intros l Hf; [reflexivity|].
  rewrite !apply_events_cons, IH by exact Hf.
  unfold apply_event. now rewrite update_goalState_filter.
Qed.

Lemma apply_events_no_such_node now new : forall l,
  (forall e, In e new -> ~ In (event_key e) (map node_key l)) ->
  apply_events now new l = l.
Proof.
  induction new as [|e new IH]; intros l H; [reflexivity|].
  rewrite apply_events_cons. unfold apply_event.
  rewrite update_no_such_node by (apply (H e); simpl; auto).
  apply IH. intros e' He'. apply H. simpl; auto.
Qed.

(** X23.  In a node table whose rows have distinct names (nodeName, nodePort)
    and that holds the reporting node, the rows of the other groups and
    formations are the same after the invocation as before, goal states
    included. *)
Theorem other_groups_are_left_alone cfg activeNode s :
  NoDup (map node_key (nodeTable s)) ->
  In activeNode (nodeTable s) ->
  let outside n :=
    negb (in_group (formationId activeNode) (groupId activeNode) n) in
  filter outside (nodeTable (final_state (ProceedGroupState cfg activeNode s)))
  = filter outside (nodeTable s).
Proof.
  intros Hnd Ha outside.
  destruct (assignments_decision cfg activeNode s) as (b & _ & Hext).
  rewrite (ext_nodes _ _ _ Hext).
  rewrite apply_events_filter by reflexivity.
  apply apply_events_no_such_node.
  intros e He Hkey.
  apply in_map_iff in Hkey. destruct Hkey as (r & Hr & Hin).
  apply filter_In in Hin. destruct Hin as [Hrin Hout].
  destruct (assignments_target cfg activeNode s e He)
    as (n & msg & Heq & Hn).
  assert (HnG : In n (nodesGroup s activeNode)).
  { destruct Hn as [-> | Hn]; [|exact Hn].
    apply filter_In. auto using in_group_self. }
  apply filter_In in HnG. destruct HnG as [Hnin Hngroup].
  assert (r = n).
  { apply (same_key_same_node (nodeTable s)); auto.
    rewrite Hr, Heq. reflexivity. }
  subst r. unfold outside in Hout. rewrite Hngroup in Hout. discriminate.
Qed.

(** X23 at a failover in group 0 of a table that also holds a node of group 1. *)
Lemma other_groups_are_left_alone_witness :
  let outside n :=
    negb (in_group (formationId Scenario.candidate_standby)
            (groupId Scenario.candidate_standby) n) in
  filter outside
    (nodeTable (final_state (ProceedGroupState Scenario.cfg
                               Scenario.candidate_standby Cases.two_groups)))
  = filter outside (nodeTable Cases.two_groups).
Proof.
  apply (other_groups_are_left_alone Scenario.cfg Scenario.candidate_standby
           Cases.two_groups).
  - simpl. repeat constructor; simpl; intuition discriminate.
  - simpl. auto.
Defined.

(** ** The log channel *)

Lemma publishes_trans s s1 s2 :
  publishes s s1 -> publishes s1 s2 -> publishes s s2.
Proof.
  intros (n1 & m1 & E1 & L1 & H1) (n2 & m2 & E2 & L2 & H2).
  exists (n1 ++ n2), (m1 ++ m2).
  rewrite E2, E1, L2, L1, !app_assoc. repeat split.
  intros e He. apply in_app_iff in He. apply in_app_iff.
  destruct He; auto.
Qed.

Ltac list_extension :=
  simpl; first [ rewrite <- ?app_assoc; reflexivity
               | symmetry; apply app_nil_r ].

Ltac publishes_by_computation :=
  eexists; eexists;
  split; [list_extension|];
  split; [list_extension|];
  let e := fresh "e" in
  let He := fresh "He" in
  intros e He; simpl in He; simpl;
  intuition (subst; simpl; auto).

Lemma foreach_otherNode_unhealthy_publishes cfg primaryNode O :
  forall count s,
  exists s',
    foreach_otherNode_unhealthy cfg primaryNode O count s = Ok tt s'
    /\ publishes s s'.
Proof.
  induction O as [|o rest IH]; intros count s.
  - exists s. split; [reflexivity|]. publishes_by_computation.
  - simpl foreach_otherNode_unhealthy.
    run_monad.
    destruct (IsCurrentState o REPLICATION_STATE_SECONDARY); simpl;
      [destruct (unhealthy_at cfg (clock cfg (clockReads s)) (Some o)); simpl|];
      try destruct (negb (replicationQuorum o) || (candidatePriority o =? 0));
      simpl;
      match goal with
      | |- context [if ?c =? 0 then _ else _] => destruct (c =? 0); simpl
      end;
      match goal with
      | |- exists s', foreach_otherNode_unhealthy _ _ _ ?c ?s1 = _ /\ _ =>
          destruct (IH c s1) as (s' & Hrun & Hpub);
          exists s'; split; [exact Hrun|];
          eapply publishes_trans; [|exact Hpub];
          publishes_by_computation
      end.
Qed.

Lemma ProceedGroupState_publishes cfg a s :
  publishes s (final_state (ProceedGroupState cfg a s)).
Proof.
  unfold ProceedGroupState, GetFormation, AutoFailoverNodeGroup,
    GetPrimaryNodeInGroup, AutoFailoverNodeGroup, ereport.
  run_monad.
  destruct (_ && negb _); simpl; [publishes_by_computation|].
  destruct (IsInPrimaryState a); simpl.
  - unfold ProceedGroupStateForPrimaryNode, AutoFailoverOtherNodesList,
      AutoFailoverNodeGroup.
    run_monad.
    change (filter (fun o => negb (nodeId o =? nodeId a))
              (filter (in_group (formationId a) (groupId a)) (nodeTable s)))
      with (otherNodes s a).
    destruct (foreach_otherNode_unhealthy_publishes cfg a (otherNodes s a)
                (Z.of_nat (List.length (otherNodes s a))) s)
      as (s' & Hrun & Hpub).
    destruct (first_wait_standby (otherNodes s a));
      destruct (IsCurrentState a REPLICATION_STATE_SINGLE);
      destruct (IsCurrentState a REPLICATION_STATE_PRIMARY);
      destruct (IsCurrentState a REPLICATION_STATE_APPLY_SETTINGS);
      simpl; rewrite ?Hrun; simpl;
      first [ exact Hpub | publishes_by_computation ].
  - destruct (find is_primary_candidate _) as [P|]; simpl;
      [|publishes_by_computation].
    unfold ProceedGroupState_with_primary. run_monad.
    repeat match goal with
           | |- context [if ?c then _ else _] => destruct c; simpl
           end;
      publishes_by_computation.
Qed.

(** X24.  The description of every assignment of an invocation has also been
    published on the log channel by the same invocation. *)
Theorem every_assignment_is_logged cfg activeNode s e :
  In e (assignments cfg activeNode s) ->
  In (ev_description e) (logged cfg activeNode s).
Proof.
  destruct (ProceedGroupState_publishes cfg activeNode s)
    as (new & msgs & E & L & H).
  unfold assignments, logged. rewrite E, L, !skipn_length_app.
  apply H.
Qed.

(** X24 at the second assignment of a failover. *)
Lemma every_assignment_is_logged_witness :
  In (ev_description
        (nth 1 (assignments Scenario.cfg Scenario.candidate_standby
                  Cases.two_groups)
             (catchingup_event Cases.elsewhere)))
     (logged Scenario.cfg Scenario.candidate_standby Cases.two_groups).
Proof.
  apply (every_assignment_is_logged Scenario.cfg Scenario.candidate_standby
           Cases.two_groups).
  vm_compute. right. left. reflexivity.
Defined.

(** ** One assignment per node *)

Lemma R12_unhealthy_NoDup cfg O : forall t,
  NoDup (map node_key O) -> NoDup (map node_key (R12_unhealthy cfg t O)).
Proof.
  induction O as [|o rest IH]; intros t Hnd; simpl; [constructor|].
  inversion Hnd as [|? ? Hh Hnd']; subst.
  destruct (unhealthy_secondary cfg (clock cfg t) o); simpl; auto.
  constructor; auto.
  intro Hin. apply Hh. apply in_map_iff in Hin.
  destruct Hin as (x & Hx & Hin). apply R12_unhealthy_incl in Hin.
  apply in_map_iff. eauto.
Qed.

Lemma converged_standby_is_not_the_primary s a P st :
  IsCurrentState a st = true -> IsInPrimaryState a = false ->
  primaryNodeInGroup s a = Some P -> a <> P.
Proof.
  intros Hc Ha HP ->. apply find_some in HP. destruct HP as [_ HP].
  apply IsCurrentState_eq in Hc. destruct Hc as [Hr Hg].
  unfold is_primary_candidate in HP. unfold IsInPrimaryState in Ha.
  rewrite Hr, Hg in *.
  destruct st; simpl in *; discriminate.
Qed.

(** X25.  In a node table whose rows have distinct names (nodeName, nodePort)
    and that holds the reporting node, one invocation assigns a goal state to
    any node at most once: the names of its assignments are pairwise distinct. *)
Theorem no_node_is_assigned_twice cfg activeNode s :
  NoDup (map node_key (nodeTable s)) ->
  In activeNode (nodeTable s) ->
  NoDup (map event_key (assignments cfg activeNode s)).
Proof.
  intros Hnd Ha.
  assert (HaG : In activeNode (nodesGroup s activeNode))
    by (apply filter_In; auto using in_group_self).
  assert (Hpair : forall st P,
            IsCurrentState activeNode st = true ->
            IsInPrimaryState activeNode = false ->
            primaryNodeInGroup s activeNode = Some P ->
            node_key activeNode <> node_key P).
  { intros st P Hc Hnp HP Hk.
    apply (converged_standby_is_not_the_primary s activeNode P st Hc Hnp HP).
    apply (same_key_same_node (nodeTable s)); auto.
    apply find_some in HP. destruct HP as [HP _].
    unfold nodesGroup in HP. apply filter_In in HP. tauto. }
  destruct (assignments_decision cfg activeNode s) as (b & Hdec & _).
  invert_decision Hdec.
  9: { unfold R12_assignments. rewrite map_app, map_map.
       assert (HO : NoDup (map node_key (otherNodes s activeNode)))
         by (unfold otherNodes, nodesGroup; auto using NoDup_keys_filter).
       apply NoDup_app.
       - change (fun x => event_key (catchingup_event x)) with node_key.
         now apply R12_unhealthy_NoDup.
       - destruct (_ && _); simpl; repeat constructor; auto.
       - intros k Hk Hk'. destruct (_ && _); simpl in Hk'; [|tauto].
         destruct Hk' as [<- | []].
         apply in_map_iff in Hk. destruct Hk as (o & Hko & Ho).
         apply R12_unhealthy_incl in Ho.
         unfold otherNodes in Ho. apply filter_In in Ho.
         destruct Ho as [HoG Hid].
         assert (o = activeNode).
         { apply (same_key_same_node (nodesGroup s activeNode)); auto.
           unfold nodesGroup. auto using NoDup_keys_filter. }
         subst o. rewrite Z.eqb_refl in Hid. discriminate. }
  all: simpl; repeat constructor; simpl; try tauto.
  all: intros [Hk | []]; symmetry in Hk; revert Hk.
  all: try match goal with
       | H : _ || _ = true |- _ => apply orb_prop in H; destruct H
       end.
  all: eapply Hpair; eauto.
Qed.

(** X25 at scenario S5. *)
Lemma no_node_is_assigned_twice_witness :
  NoDup (map event_key
           (assignments Scenario.cfg Scenario.S5_primary Scenario.S5)).
Proof.
  apply (no_node_is_assigned_twice Scenario.cfg Scenario.S5_primary
           Scenario.S5).
  - simpl. repeat constructor; simpl; intuition discriminate.
  - simpl. auto.
Defined.

(** ** The names of the SSL modes *)

(** X26.  Reading back the name of an SSL mode gives the mode:
    pgsetup_parse_sslmode applied to pgsetup_sslmode_to_string of a mode is
    that mode, unknown included. *)
Theorem sslmode_round_trip sslMode :
  pgsetup_parse_sslmode (pgsetup_sslmode_to_string sslMode) = sslMode.
Proof.
  destruct sslMode; reflexivity.
Qed.

(** X27.  Parsing a string and printing the result gives the string back when
    it is one of the six names of sslModeArray, and gives unknown for every
    other string. *)
Theorem sslmode_of_a_string_reads_back sslMode :
  pgsetup_sslmode_to_string (pgsetup_parse_sslmode sslMode)
  = (if existsb (String.eqb sslMode) sslModeArray
     then sslMode
     else "unknown").
Proof.
  unfold pgsetup_parse_sslmode, sslModeArray. simpl.
  repeat match goal with
         | |- context [String.eqb sslMode ?name] =>
             destruct (String.eqb_spec sslMode name) as [-> | _];
             [reflexivity | simpl]
         end.
  reflexivity.
Qed.
